(** * Claude Island hook scripts: cursor-island-state.py and pi-island-state.py

    A shallow embedding of the two hook scripts and the properties of their
    payload extractor ([parse_input]) and event normalizer ([main]).

    Layout:
    - [Py]      the fragment of Python values and string operations the
                scripts use, with exceptions as [option];
    - [Json]    an executable model of [json.loads], used to run the scripts
                on concrete inputs;
    - [Cursor]  cursor-island-state.py;
    - [Pi]      pi-island-state.py;
    - [Spec]    the tables and descriptions of the specification, written
                from its words, to compare with the code;
    - the properties. *)

From Stdlib Require Import ZArith List String Ascii Bool Lia.
Import ListNotations.
Open Scope string_scope.
Open Scope Z_scope.

Set Warnings "-register-all".

(* ------------------------------------------------------------------ *)
(** ** Python values                                                    *)
(* ------------------------------------------------------------------ *)

Module Py.

(** A float is kept as the decimal it was read from, [m * 10^e]; the scripts
    observe a float only through its truth value. *)
Inductive pyfloat : Type :=
| FDec (m e : Z)
| FInf (negative : bool)
| FNaN.

(** The values [json.loads] can return.  A [str] is the sequence of the
    bytes of its UTF-8 encoding; a [dict] keeps its items in insertion
    order, one item per key. *)
Inductive pyval : Type :=
| PNone
| PBool (b : bool)
| PInt (z : Z)
| PFloat (f : pyfloat)
| PStr (s : string)
| PList (l : list pyval)
| PDict (items : list (string * pyval)).

(** [float(lexeme) != 0.0]: a binary64 literal rounds to zero exactly when
    its magnitude is at most [2^-1075], half the smallest subnormal. *)
Definition float_nonzero (f : pyfloat) : bool :=
  match f with
  | FDec m e =>
      if 0 <=? e then negb (m =? 0)
      else 10 ^ (- e) <? Z.abs m * 2 ^ 1075
  | FInf _ => true
  | FNaN => true
  end.

(** [bool(v)] *)
Definition truthy (v : pyval) : bool :=
  match v with
  | PNone => false
  | PBool b => b
  | PInt z => negb (z =? 0)
  | PFloat f => float_nonzero f
  | PStr s => negb (String.eqb s "")
  | PList l => match l with [] => false | _ => true end
  | PDict d => match d with [] => false | _ => true end
  end.

(** [v is None] *)
Definition is_none (v : pyval) : bool :=
  match v with PNone => true | _ => false end.

(** [isinstance(v, str)] *)
Definition is_str (v : pyval) : bool :=
  match v with PStr _ => true | _ => false end.

(** [v == lit] for a string literal [lit]: only a [str] equals a [str]. *)
Definition eq_str (v : pyval) (lit : string) : bool :=
  match v with PStr s => String.eqb s lit | _ => false end.

(** The double quote character. *)
Definition dquote : ascii := "034".

(** *** Exceptions

    [None] stands for a raised [Exception]; the scripts never look at which
    one it is. *)
Definition exc (A : Type) : Type := option A.
Definition ret {A} (a : A) : exc A := Some a.
Definition raise {A} : exc A := None.
Definition bind {A B} (m : exc A) (k : A -> exc B) : exc B :=
  match m with Some a => k a | None => None end.

Notation "x <- m ;; k" := (bind m (fun x => k))
  (at level 61, m at next level, right associativity).

(** *** Dictionaries *)

Definition dict := list (string * pyval).

Fixpoint dict_get (k : string) (d : dict) : option pyval :=
  match d with
  | [] => None
  | (k', v) :: d' => if String.eqb k k' then Some v else dict_get k d'
  end.

(** [d[k] = v]: replaces the value of an existing key in place, appends a
    new key. *)
Fixpoint dict_set (k : string) (v : pyval) (d : dict) : dict :=
  match d with
  | [] => [(k, v)]
  | (k', v') :: d' =>
      if String.eqb k k' then (k, v) :: d' else (k', v') :: dict_set k v d'
  end.

(** [d.get(k, default)]; [AttributeError] when [d] is not a dict, since no
    other JSON value has a [get] attribute. *)
Definition get (d : pyval) (k : string) (default : pyval) : exc pyval :=
  match d with
  | PDict items =>
      ret (match dict_get k items with Some v => v | None => default end)
  | _ => raise
  end.

(** *** Strings *)

(** [s.find(c)] for a one-character [c]: the first index, or -1. *)
Fixpoint find_from (c : ascii) (s : string) (i : Z) : Z :=
  match s with
  | EmptyString => -1
  | String a r => if Ascii.eqb a c then i else find_from c r (i + 1)
  end.
Definition find (c : ascii) (s : string) : Z := find_from c s 0.

(** [s.rfind(c)] for a one-character [c]: the last index, or -1. *)
Fixpoint rfind_from (c : ascii) (s : string) (i last : Z) : Z :=
  match s with
  | EmptyString => last
  | String a r => rfind_from c r (i + 1) (if Ascii.eqb a c then i else last)
  end.
Definition rfind (c : ascii) (s : string) : Z := rfind_from c s 0 (-1).

(** [s[a:b]] for [0 <= a]. *)
Definition slice (s : string) (a b : Z) : string :=
  substring (Z.to_nat a) (Z.to_nat (b - a)) s.

(** [s[a:]] for [0 <= a]. *)
Definition slice_from (s : string) (a : Z) : string :=
  substring (Z.to_nat a) (String.length s - Z.to_nat a) s.

(** [s[:-n]] for [0 < n]. *)
Definition drop_last (s : string) (n : nat) : string :=
  substring 0 (String.length s - n) s.

(** [s.endswith(suffix)] *)
Definition endswith (s suffix : string) : bool :=
  (String.length suffix <=? String.length s)%nat &&
  String.eqb
    (substring (String.length s - String.length suffix)
               (String.length suffix) s)
    suffix.

(** [c in s] for a one-character [c]. *)
Fixpoint contains (c : ascii) (s : string) : bool :=
  match s with
  | EmptyString => false
  | String a r => Ascii.eqb a c || contains c r
  end.

(** The two halves around the first [c], when there is one. *)
Fixpoint partition (c : ascii) (s : string) : option (string * string) :=
  match s with
  | EmptyString => None
  | String a r =>
      if Ascii.eqb a c then Some (EmptyString, r)
      else match partition c r with
           | Some (x, y) => Some (String a x, y)
           | None => None
           end
  end.

(** [s.split(c, 1)] for a one-character [c]. *)
Definition split1 (c : ascii) (s : string) : list string :=
  match partition c s with
  | Some (x, y) => [x; y]
  | None => [s]
  end.

(** [os.path.basename(p)] of posixpath: [p[p.rfind("/") + 1:]]. *)
Definition basename (p : string) : string :=
  slice_from p (rfind "/" p + 1).

(** The continuation bytes at the head of [s] (bytes [10xxxxxx]). *)
Fixpoint continuation (s : string) : string :=
  match s with
  | String (Ascii b0 b1 b2 b3 b4 b5 false true) r =>
      String (Ascii b0 b1 b2 b3 b4 b5 false true) (continuation r)
  | _ => EmptyString
  end.

(** [s[0]]: the first character, that is the first byte and the
    continuation bytes after it; [IndexError] on the empty string. *)
Definition first_char (s : string) : exc string :=
  match s with
  | EmptyString => raise
  | String a r => ret (String a (continuation r))
  end.

(** [v[0]].  A list gives its first item ([IndexError] when empty), a
    string its first character; a dict raises [KeyError] because JSON keys
    are strings; every other value raises [TypeError]. *)
Definition index0 (v : pyval) : exc pyval :=
  match v with
  | PList (x :: _) => ret x
  | PStr s => c <- first_char s ;; ret (PStr c)
  | _ => raise
  end.

(** ["/" in v].  Substring test on a string, membership on a list, key
    membership on a dict; [TypeError] on every other value. *)
Definition contains_slash (v : pyval) : exc bool :=
  match v with
  | PStr s => ret (contains "/" s)
  | PList l => ret (existsb (fun x => eq_str x "/") l)
  | PDict d => ret (existsb (fun kv => String.eqb (fst kv) "/") d)
  | _ => raise
  end.

(** [os.path.basename(v)]: [TypeError] unless [v] is a string. *)
Definition path_basename (v : pyval) : exc string :=
  match v with
  | PStr s => ret (basename s)
  | _ => raise
  end.

(** [v.endswith(suffix)]: [AttributeError] unless [v] is a string. *)
Definition val_endswith (v : pyval) (suffix : string) : exc bool :=
  match v with
  | PStr s => ret (endswith s suffix)
  | _ => raise
  end.

(** [v[:-n] + suffix] on a string [v]. *)
Definition replace_tail (v : pyval) (n : nat) (suffix : string) : exc pyval :=
  match v with
  | PStr s => ret (PStr (drop_last s n ++ suffix))
  | _ => raise
  end.

(** What one run of a script leaves behind: the lines printed on standard
    output, the text that reached standard error, the exit status, and the
    record handed to [send_event], if any. *)
Record outcome : Type := {
  stdout : list string;
  stderr : string;
  exit_status : Z;
  sent : option dict
}.

End Py.

(* ------------------------------------------------------------------ *)
(** ** json.loads                                                       *)
(* ------------------------------------------------------------------ *)

(** The decoder of Python's [json] module with its default settings
    (strict strings, [NaN] and the infinities accepted, later duplicate
    keys overriding earlier ones), on UTF-8 text.  The interpreter's
    recursion limit and its cap on the digits of an integer literal are
    not part of this model; the general properties below hold for every
    decoder, and this one runs the scripts on concrete payloads. *)
Module Json.
Import Py.

Definition code (c : ascii) : Z := Z.of_N (N_of_ascii c).
Definition chr (z : Z) : ascii := ascii_of_N (Z.to_N z).

Definition is_ws (c : ascii) : bool :=
  let n := code c in (n =? 32) || (n =? 9) || (n =? 10) || (n =? 13).

Definition is_digit (c : ascii) : bool :=
  let n := code c in (48 <=? n) && (n <=? 57).

Fixpoint skip_ws (s : string) : string :=
  match s with
  | String c r => if is_ws c then skip_ws r else s
  | EmptyString => s
  end.

(** The longest run of digits at the head of [s]: its value after [acc],
    how many there are, and what follows. *)
Fixpoint digits (s : string) (acc count : Z) : Z * Z * string :=
  match s with
  | String c r =>
      if is_digit c then digits r (10 * acc + (code c - 48)) (count + 1)
      else (acc, count, s)
  | EmptyString => (acc, count, s)
  end.

Definition starts_with_digit (s : string) : bool :=
  match s with String c _ => is_digit c | EmptyString => false end.

(** The number at the head of [s]: an optional minus sign, then a zero or
    a run of digits that does not start with zero, then optionally a dot
    with at least one digit, then optionally [e] or [E] with an optional
    sign and at least one digit.  An [int] without fraction and exponent,
    a [float] otherwise. *)
Definition match_number (s : string) : option (pyval * string) :=
  let '(sign, s1) :=
    match s with
    | String "-" r => (-1, r)
    | _ => (1, s)
    end in
  let int_part :=
    match s1 with
    | String "0" r => Some (0, r)
    | String c _ =>
        if is_digit c then
          let '(v, _, r) := digits s1 0 0 in Some (v, r)
        else None
    | EmptyString => None
    end in
  match int_part with
  | None => None
  | Some (i, s2) =>
      let '(frac, fcount, has_frac, s3) :=
        match s2 with
        | String "." r =>
            if starts_with_digit r then
              let '(v, n, r') := digits r 0 0 in (v, n, true, r')
            else (0, 0, false, s2)
        | _ => (0, 0, false, s2)
        end in
      let '(ex, has_exp, s4) :=
        match s3 with
        | String c r =>
            if (code c =? 101) || (code c =? 69) then
              let '(esign, r1) :=
                match r with
                | String "-" r' => (-1, r')
                | String "+" r' => (1, r')
                | _ => (1, r)
                end in
              if starts_with_digit r1 then
                let '(v, _, r2) := digits r1 0 0 in (esign * v, true, r2)
              else (0, false, s3)
            else (0, false, s3)
        | EmptyString => (0, false, s3)
        end in
      if has_frac || has_exp then
        Some (PFloat (FDec (sign * (i * 10 ^ fcount + frac)) (ex - fcount)),
              s4)
      else Some (PInt (sign * i), s4)
  end.

Definition hex_digit (c : ascii) : option Z :=
  let n := code c in
  if (48 <=? n) && (n <=? 57) then Some (n - 48)
  else if (65 <=? n) && (n <=? 70) then Some (n - 55)
  else if (97 <=? n) && (n <=? 102) then Some (n - 87)
  else None.

Definition hex4 (a b c d : ascii) : option Z :=
  match hex_digit a, hex_digit b, hex_digit c, hex_digit d with
  | Some x, Some y, Some z, Some w => Some (((x * 16 + y) * 16 + z) * 16 + w)
  | _, _, _, _ => None
  end.

(** What a string literal is made of: a byte of the text, or the code
    point of a [\uXXXX] escape. *)
Inductive piece : Type :=
| Raw (c : ascii)
| Escaped (cp : Z).

(** The one-letter escapes. *)
Definition backslash (c : ascii) : option ascii :=
  let n := code c in
  if n =? 34 then Some (chr 34)
  else if n =? 92 then Some (chr 92)
  else if n =? 47 then Some (chr 47)
  else if n =? 98 then Some (chr 8)
  else if n =? 102 then Some (chr 12)
  else if n =? 110 then Some (chr 10)
  else if n =? 114 then Some (chr 13)
  else if n =? 116 then Some (chr 9)
  else None.

(** The body of a string literal, after its opening quote, up to and
    including the closing quote. *)
Fixpoint scan_pieces (s : string) : option (list piece * string) :=
  match s with
  | EmptyString => None
  | String c r =>
      if code c =? 34 then Some ([], r)
      else if code c =? 92 then
        match r with
        | String e r1 =>
            if code e =? 117 then
              match r1 with
              | String h1 (String h2 (String h3 (String h4 r2))) =>
                  match hex4 h1 h2 h3 h4, scan_pieces r2 with
                  | Some cp, Some (ps, rest) => Some (Escaped cp :: ps, rest)
                  | _, _ => None
                  end
              | _ => None
              end
            else
              match backslash e, scan_pieces r1 with
              | Some ch, Some (ps, rest) => Some (Raw ch :: ps, rest)
              | _, _ => None
              end
        | EmptyString => None
        end
      else if code c <? 32 then None
      else
        match scan_pieces r with
        | Some (ps, rest) => Some (Raw c :: ps, rest)
        | None => None
        end
  end.

(** The UTF-8 encoding of a code point. *)
Definition utf8 (cp : Z) : string :=
  if cp <? 128 then String (chr cp) EmptyString
  else if cp <? 2048 then
    String (chr (192 + cp / 64)) (String (chr (128 + cp mod 64)) EmptyString)
  else if cp <? 65536 then
    String (chr (224 + cp / 4096))
      (String (chr (128 + (cp / 64) mod 64))
         (String (chr (128 + cp mod 64)) EmptyString))
  else
    String (chr (240 + cp / 262144))
      (String (chr (128 + (cp / 4096) mod 64))
         (String (chr (128 + (cp / 64) mod 64))
            (String (chr (128 + cp mod 64)) EmptyString))).

Definition is_high (cp : Z) : bool := (55296 <=? cp) && (cp <=? 56319).
Definition is_low (cp : Z) : bool := (56320 <=? cp) && (cp <=? 57343).

(** The text of a literal: a high surrogate escape directly followed by a
    low surrogate escape is one character. *)
Fixpoint assemble (ps : list piece) : string :=
  match ps with
  | [] => EmptyString
  | Raw c :: ps' => String c (assemble ps')
  | Escaped hi :: ps' =>
      match ps' with
      | Escaped lo :: ps'' =>
          if is_high hi && is_low lo then
            utf8 (65536 + ((hi - 55296) * 1024 + (lo - 56320)))
            ++ assemble ps''
          else utf8 hi ++ assemble ps'
      | _ => utf8 hi ++ assemble ps'
      end
  end.

Definition scanstring (s : string) : option (string * string) :=
  match scan_pieces s with
  | Some (ps, rest) => Some (assemble ps, rest)
  | None => None
  end.

(** [s] without the prefix [p], when it starts with it. *)
Fixpoint after_prefix (p s : string) : option string :=
  match p, s with
  | EmptyString, _ => Some s
  | String a p', String b s' =>
      if Ascii.eqb a b then after_prefix p' s' else None
  | String _ _, EmptyString => None
  end.

(** One JSON value at the head of [s] and what follows it; [parse_pairs]
    and [parse_items] continue an object and an array from the start of
    their next member.  Every call consumes at least one character, so
    [fuel] above the length of [s] is never exhausted. *)
Fixpoint scan_once (fuel : nat) (s : string) : option (pyval * string) :=
  match fuel with
  | O => None
  | S fuel' =>
      match s with
      | EmptyString => None
      | String c r =>
          if code c =? 34 then
            match scanstring r with
            | Some (str, rest) => Some (PStr str, rest)
            | None => None
            end
          else if code c =? 123 then
            match skip_ws r with
            | String "}" rest => Some (PDict [], rest)
            | r' => parse_pairs fuel' r' []
            end
          else if code c =? 91 then
            match skip_ws r with
            | String "]" rest => Some (PList [], rest)
            | r' => parse_items fuel' r' []
            end
          else
            match after_prefix "null" s with
            | Some rest => Some (PNone, rest)
            | None =>
            match after_prefix "true" s with
            | Some rest => Some (PBool true, rest)
            | None =>
            match after_prefix "false" s with
            | Some rest => Some (PBool false, rest)
            | None =>
            match match_number s with
            | Some res => Some res
            | None =>
            match after_prefix "NaN" s with
            | Some rest => Some (PFloat FNaN, rest)
            | None =>
            match after_prefix "Infinity" s with
            | Some rest => Some (PFloat (FInf false), rest)
            | None =>
            match after_prefix "-Infinity" s with
            | Some rest => Some (PFloat (FInf true), rest)
            | None => None
            end end end end end end end
      end
  end

with parse_pairs (fuel : nat) (s : string) (acc : dict)
  : option (pyval * string) :=
  match fuel with
  | O => None
  | S fuel' =>
      match s with
      | String c r =>
          if negb (code c =? 34) then None else
          match scanstring r with
          | Some (key, r1) =>
              match skip_ws r1 with
              | String ":" r2 =>
                  match scan_once fuel' (skip_ws r2) with
                  | Some (v, r3) =>
                      let acc' := dict_set key v acc in
                      match skip_ws r3 with
                      | String "}" rest => Some (PDict acc', rest)
                      | String "," r4 => parse_pairs fuel' (skip_ws r4) acc'
                      | _ => None
                      end
                  | None => None
                  end
              | _ => None
              end
          | None => None
          end
      | _ => None
      end
  end

with parse_items (fuel : nat) (s : string) (acc : list pyval)
  : option (pyval * string) :=
  match fuel with
  | O => None
  | S fuel' =>
      match scan_once fuel' s with
      | Some (v, r1) =>
          let acc' := (acc ++ [v])%list in
          match skip_ws r1 with
          | String "]" rest => Some (PList acc', rest)
          | String "," r2 => parse_items fuel' (skip_ws r2) acc'
          | _ => None
          end
      | None => None
      end
  end.

(** [json.loads(s)]: one value, white space around it, nothing else;
    [None] when the decoder raises. *)
Definition loads (s : string) : option pyval :=
  match scan_once (S (S (String.length s))) (skip_ws s) with
  | Some (v, rest) =>
      match skip_ws rest with
      | EmptyString => Some v
      | String _ _ => None
      end
  | None => None
  end.

(** JSON texts are written below with an apostrophe where the text has
    a double quote: [text "{'a': 1}"] is the seven characters of the
    object with key [a]. *)
Fixpoint text (s : string) : string :=
  match s with
  | EmptyString => EmptyString
  | String c r => String (if code c =? 39 then dquote else c) (text r)
  end.

End Json.


(* ------------------------------------------------------------------ *)
(** ** cursor-island-state.py                                       *)
(* ------------------------------------------------------------------ *)

Module Cursor.
Import Py.

Section Script.

(** [json.loads]; [None] when it raises. *)
Variable json_loads : string -> option pyval.

(** The [for] loop of the third strategy of [parse_input], at index [i]
    with [rest = raw[i:]]: the value returned from inside the loop, or
    [None] when the loop ends or breaks. *)
Fixpoint scan (raw : string) (start : Z) (rest : string) (i depth : Z)
  (in_string escape : bool) : pyval :=
  match rest with
  | EmptyString => PNone
  | String c rest' =>
      if escape then scan raw start rest' (i + 1) depth in_string false
      else if Ascii.eqb c "\" then
        scan raw start rest' (i + 1) depth in_string true
      else if Ascii.eqb c dquote && negb escape then
        scan raw start rest' (i + 1) depth (negb in_string) escape
      else if in_string then
        scan raw start rest' (i + 1) depth in_string escape
      else if Ascii.eqb c "{" then
        scan raw start rest' (i + 1) (depth + 1) in_string escape
      else if Ascii.eqb c "}" then
        let depth := depth - 1 in
        if depth =? 0 then
          match json_loads (slice raw start (i + 1)) with
          | Some v => v
          | None => PNone
          end
        else scan raw start rest' (i + 1) depth in_string escape
      else scan raw start rest' (i + 1) depth in_string escape
  end.

(** The third strategy of [parse_input], from [if start >= 0:] to the
    final [return None]. *)
Definition balanced (raw : string) (start : Z) : pyval :=
  if 0 <=? start then
    scan raw start (slice_from raw start) start 0 false false
  else PNone.

(** [parse_input(raw)] *)
Definition parse_input (raw : string) : pyval :=
  match json_loads raw with
  | Some v => v
  | None =>
      let start := find "{" raw in
      let end_ := rfind "}" raw in
      match
        (if (0 <=? start) && (start <? end_)
         then json_loads (slice raw start (end_ + 1))
         else None)
      with
      | Some v => v
      | None => balanced raw start
      end
  end.

(** The decoding of a [tool_input] that is a string. *)
Definition decode_tool_input (tool_input : pyval) : pyval :=
  match tool_input with
  | PStr s =>
      if truthy tool_input then
        match json_loads s with
        | Some v => v
        | None => PDict []
        end
      else PDict []
  | _ => tool_input
  end.

(** Line 94: [conversation_id], else [session_id], else ["unknown"]. *)
Definition session_id_of (data : pyval) : exc pyval :=
  conversation_id <- get data "conversation_id" PNone ;;
  if truthy conversation_id then ret conversation_id
  else
    sid <- get data "session_id" PNone ;;
    ret (if truthy sid then sid else PStr "unknown").

(** Lines 96-97: the first workspace root, else the empty string. *)
Definition cwd_of (data : pyval) : exc pyval :=
  roots <- get data "workspace_roots" PNone ;;
  let workspace_roots := if truthy roots then roots else PList [] in
  if truthy workspace_roots then index0 workspace_roots
  else ret (PStr "").

(** Lines 98-103 *)
Definition tool_input_of (data : pyval) : exc pyval :=
  tool_input <- get data "tool_input" (PDict []) ;;
  ret (decode_tool_input tool_input).

(** Lines 106-108: the transcript path, with [.txt] rewritten to
    [.jsonl]. *)
Definition transcript_path_of (data : pyval) : exc pyval :=
  transcript_path <- get data "transcript_path" (PStr "") ;;
  if truthy transcript_path then
    txt <- val_endswith transcript_path ".txt" ;;
    if txt then replace_tail transcript_path 4 ".jsonl"
    else ret transcript_path
  else ret transcript_path.

(** The body of [main] from line 93 on: the record built from a decoded
    payload, or the exception that escapes. *)
Definition normalize (data : pyval) : exc dict :=
  session_id <- session_id_of data ;;
  event <- get data "hook_event_name" (PStr "") ;;
  cwd <- cwd_of data ;;
  tool_input <- tool_input_of data ;;
  transcript_path <- transcript_path_of data ;;
  let state :=
    [("session_id", session_id); ("cwd", cwd); ("event", event);
     ("agent_type", PStr "cursor"); ("status", PStr "unknown")] in
  let state :=
    if truthy transcript_path
    then dict_set "transcript_path" transcript_path state
    else state in
  tool_use_id <- get data "tool_use_id" (PStr "") ;;
  if eq_str event "beforeSubmitPrompt" then
    ret (dict_set "status" (PStr "processing") state)
  else if eq_str event "preToolUse" then
    let state := dict_set "status" (PStr "running_tool") state in
    tool_name <- get data "tool_name" PNone ;;
    let state := dict_set "tool" tool_name state in
    let state := dict_set "tool_input" tool_input state in
    let state :=
      if truthy tool_use_id then dict_set "tool_use_id" tool_use_id state
      else state in
    let state :=
      match dict_get "tool" state with
      | Some tool =>
          if eq_str tool "Shell"
          then dict_set "tool_display" (PStr "Bash") state
          else state
      | None => state
      end in
    ret state
  else if eq_str event "postToolUse" then
    let state := dict_set "status" (PStr "processing") state in
    tool_name <- get data "tool_name" PNone ;;
    let state := dict_set "tool" tool_name state in
    let state := dict_set "tool_input" tool_input state in
    let state :=
      if truthy tool_use_id then dict_set "tool_use_id" tool_use_id state
      else state in
    let state :=
      match dict_get "tool" state with
      | Some tool =>
          if eq_str tool "Shell"
          then dict_set "tool_display" (PStr "Bash") state
          else state
      | None => state
      end in
    ret state
  else if eq_str event "stop" then
    ret (dict_set "status" (PStr "waiting_for_input") state)
  else if eq_str event "subagentStop" then
    ret (dict_set "status" (PStr "waiting_for_input") state)
  else if eq_str event "sessionStart" then
    ret (dict_set "status" (PStr "waiting_for_input") state)
  else if eq_str event "sessionEnd" then
    ret (dict_set "status" (PStr "ended") state)
  else if eq_str event "preCompact" then
    ret (dict_set "status" (PStr "compacting") state)
  else
    ret (dict_set "status" (PStr "unknown") state).

(** [main()], on what [sys.stdin.read()] gives ([None] when it raises):
    the record passed to [send_event], [None] after an early [return], or
    the exception that escapes.  [send_event] swallows every failure of its
    own. *)
Definition main (stdin : option string) : exc (option dict) :=
  match stdin with
  | None => ret None
  | Some raw =>
      let data := parse_input raw in
      if is_none data then ret None
      else
        state <- normalize data ;;
        ret (Some state)
  end.

(** The [__main__] block: [print] runs only when [main] returns; every
    [Exception] is swallowed, nothing is written to the replaced
    [sys.stderr], and the interpreter exits normally. *)
Definition script (stdin : option string) : outcome :=
  match main stdin with
  | Some delivered =>
      {| stdout := ["{}"]; stderr := ""; exit_status := 0;
         sent := delivered |}
  | None =>
      {| stdout := []; stderr := ""; exit_status := 0; sent := None |}
  end.

End Script.

End Cursor.

(* ------------------------------------------------------------------ *)
(** ** pi-island-state.py                                       *)
(* ------------------------------------------------------------------ *)

Module Pi.
Import Py.

Section Script.

(** [json.loads]; [None] when it raises. *)
Variable json_loads : string -> option pyval.

(** The [for] loop of the third strategy of [parse_input], at index [i]
    with [rest = raw[i:]]: the value returned from inside the loop, or
    [None] when the loop ends or breaks. *)
Fixpoint scan (raw : string) (start : Z) (rest : string) (i depth : Z)
  (in_string escape : bool) : pyval :=
  match rest with
  | EmptyString => PNone
  | String c rest' =>
      if escape then scan raw start rest' (i + 1) depth in_string false
      else if Ascii.eqb c "\" then
        scan raw start rest' (i + 1) depth in_string true
      else if Ascii.eqb c dquote && negb escape then
        scan raw start rest' (i + 1) depth (negb in_string) escape
      else if in_string then
        scan raw start rest' (i + 1) depth in_string escape
      else if Ascii.eqb c "{" then
        scan raw start rest' (i + 1) (depth + 1) in_string escape
      else if Ascii.eqb c "}" then
        let depth := depth - 1 in
        if depth =? 0 then
          match json_loads (slice raw start (i + 1)) with
          | Some v => v
          | None => PNone
          end
        else scan raw start rest' (i + 1) depth in_string escape
      else scan raw start rest' (i + 1) depth in_string escape
  end.

(** The third strategy of [parse_input], from [if start >= 0:] to the
    final [return None]. *)
Definition balanced (raw : string) (start : Z) : pyval :=
  if 0 <=? start then
    scan raw start (slice_from raw start) start 0 false false
  else PNone.

(** [parse_input(raw)] *)
Definition parse_input (raw : string) : pyval :=
  match json_loads raw with
  | Some v => v
  | None =>
      let start := find "{" raw in
      let end_ := rfind "}" raw in
      match
        (if (0 <=? start) && (start <? end_)
         then json_loads (slice raw start (end_ + 1))
         else None)
      with
      | Some v => v
      | None => balanced raw start
      end
  end.

(** The decoding of a [tool_input] that is a string. *)
Definition decode_tool_input (tool_input : pyval) : pyval :=
  match tool_input with
  | PStr s =>
      if truthy tool_input then
        match json_loads s with
        | Some v => v
        | None => PDict []
        end
      else PDict []
  | _ => tool_input
  end.

(** Line 93 *)
Definition raw_session_id_of (data : pyval) : exc pyval :=
  sid <- get data "session_id" PNone ;;
  ret (if truthy sid then sid else PStr "").

(** Lines 95-96: [cwd], else the first workspace root, else the empty
    string. *)
Definition cwd_of (data : pyval) : exc pyval :=
  roots <- get data "workspace_roots" PNone ;;
  let workspace_roots := if truthy roots then roots else PList [] in
  dir <- get data "cwd" PNone ;;
  if truthy dir then ret dir
  else if truthy workspace_roots then index0 workspace_roots
  else ret (PStr "").

(** Lines 97-102 *)
Definition tool_input_of (data : pyval) : exc pyval :=
  tool_input <- get data "tool_input" (PDict []) ;;
  ret (decode_tool_input tool_input).

(** Lines 107-120: [(transcript_path, session_id)] from the raw session
    identifier; a raw identifier with a ["/"] in it is the transcript path,
    and the identifier is what follows the first ["_"] of its base name
    without [.jsonl]. *)
Definition unwrap (raw_session_id : pyval) : exc (pyval * pyval) :=
  let transcript_path := PStr "" in
  let session_id := raw_session_id in
  if truthy raw_session_id then
    slash <- contains_slash raw_session_id ;;
    if slash then
      let transcript_path := raw_session_id in
      basename <- path_basename raw_session_id ;;
      let basename :=
        if endswith basename ".jsonl" then drop_last basename 6
        else basename in
      let parts := split1 "_" basename in
      match parts with
      | [_; uuid] => ret (transcript_path, PStr uuid)
      | _ => ret (transcript_path, PStr basename)
      end
    else ret (transcript_path, session_id)
  else ret (transcript_path, session_id).

(** Lines 122-123 *)
Definition or_unknown (session_id : pyval) : pyval :=
  if negb (truthy session_id) || eq_str session_id "ephemeral"
  then PStr "unknown" else session_id.

(** The body of [main] from line 92 on: the record built from a decoded
    payload, or the exception that escapes. *)
Definition normalize (data : pyval) : exc dict :=
  raw_session_id <- raw_session_id_of data ;;
  event <- get data "hook_event_name" (PStr "") ;;
  cwd <- cwd_of data ;;
  tool_input <- tool_input_of data ;;
  path <- unwrap raw_session_id ;;
  let '(transcript_path, session_id) := path in
  let session_id := or_unknown session_id in
  let state :=
    [("session_id", session_id); ("cwd", cwd); ("event", event);
     ("agent_type", PStr "pi"); ("status", PStr "unknown")] in
  let state :=
    if truthy transcript_path
    then dict_set "transcript_path" transcript_path state
    else state in
  tool_use_id <- get data "tool_use_id" (PStr "") ;;
  if eq_str event "beforeSubmitPrompt" then
    ret (dict_set "status" (PStr "processing") state)
  else if eq_str event "preToolUse" then
    let state := dict_set "status" (PStr "running_tool") state in
    tool_name <- get data "tool_name" PNone ;;
    let state := dict_set "tool" tool_name state in
    let state := dict_set "tool_input" tool_input state in
    let state :=
      if truthy tool_use_id then dict_set "tool_use_id" tool_use_id state
      else state in
    let state :=
      match dict_get "tool" state with
      | Some tool =>
          if eq_str tool "Shell"
          then dict_set "tool_display" (PStr "Bash") state
          else state
      | None => state
      end in
    ret state
  else if eq_str event "postToolUse" then
    let state := dict_set "status" (PStr "processing") state in
    tool_name <- get data "tool_name" PNone ;;
    let state := dict_set "tool" tool_name state in
    let state := dict_set "tool_input" tool_input state in
    let state :=
      if truthy tool_use_id then dict_set "tool_use_id" tool_use_id state
      else state in
    let state :=
      match dict_get "tool" state with
      | Some tool =>
          if eq_str tool "Shell"
          then dict_set "tool_display" (PStr "Bash") state
          else state
      | None => state
      end in
    ret state
  else if eq_str event "stop" then
    ret (dict_set "status" (PStr "waiting_for_input") state)
  else if eq_str event "subagentStop" then
    ret (dict_set "status" (PStr "waiting_for_input") state)
  else if eq_str event "sessionStart" then
    ret (dict_set "status" (PStr "waiting_for_input") state)
  else if eq_str event "sessionEnd" then
    ret (dict_set "status" (PStr "ended") state)
  else if eq_str event "preCompact" then
    ret (dict_set "status" (PStr "compacting") state)
  else
    ret (dict_set "status" (PStr "unknown") state).

(** [main()], on what [sys.stdin.read()] gives ([None] when it raises):
    the record passed to [send_event], [None] after an early [return], or
    the exception that escapes.  [send_event] swallows every failure of its
    own. *)
Definition main (stdin : option string) : exc (option dict) :=
  match stdin with
  | None => ret None
  | Some raw =>
      let data := parse_input raw in
      if is_none data then ret None
      else
        state <- normalize data ;;
        ret (Some state)
  end.

(** The [__main__] block: [print] runs only when [main] returns; every
    [Exception] is swallowed, nothing is written to the replaced
    [sys.stderr], and the interpreter exits normally. *)
Definition script (stdin : option string) : outcome :=
  match main stdin with
  | Some delivered =>
      {| stdout := ["{}"]; stderr := ""; exit_status := 0;
         sent := delivered |}
  | None =>
      {| stdout := []; stderr := ""; exit_status := 0; sent := None |}
  end.

End Script.

End Pi.

(* ------------------------------------------------------------------ *)
(** ** The specification's descriptions                                 *)
(* ------------------------------------------------------------------ *)

Module Spec.
Import Py.

(** The status derivation table, row by row. *)
Definition status_table : list (string * string) :=
  [("beforeSubmitPrompt", "processing");
   ("preToolUse", "running_tool");
   ("postToolUse", "processing");
   ("stop", "waiting_for_input");
   ("subagentStop", "waiting_for_input");
   ("sessionStart", "waiting_for_input");
   ("sessionEnd", "ended");
   ("preCompact", "compacting")].

(** The status of an event name: its row, or [unknown]. *)
Definition status (event : string) : string :=
  match List.find (fun row => String.eqb event (fst row)) status_table with
  | Some row => snd row
  | None => "unknown"
  end.

(** The status of the [event] field of a record; a value that is not a
    string is no event name. *)
Definition status_of (event : pyval) : string :=
  match event with
  | PStr e => status e
  | _ => "unknown"
  end.


(** The two tool-use events. *)
Definition tool_event (event : pyval) : bool :=
  eq_str event "preToolUse" || eq_str event "postToolUse".

(** Step 3 of the normalizer, on the raw [tool_input] field: a string is
    decoded as nested JSON, with the empty object on failure or on the
    empty string; any other value passes through; an absent field is the
    empty object. *)
Definition resolve_tool_input (json_loads : string -> option pyval)
  (field : option pyval) : pyval :=
  match field with
  | None => PDict []
  | Some (PStr s) =>
      if String.eqb s "" then PDict []
      else match json_loads s with
           | Some v => v
           | None => PDict []
           end
  | Some v => v
  end.

(** *** The depth-balanced scan *)

(** Where the scan stands after some text: the nesting depth, whether it
    is inside a string literal, and whether the last character was an
    unescaped backslash. *)
Record lexer : Type := {
  depth : Z;
  in_string : bool;
  escaped : bool
}.

Definition start_of_scan : lexer :=
  {| depth := 0; in_string := false; escaped := false |}.

(** One character: an escaped character counts for nothing; a backslash
    escapes the next one; a quote toggles the string context; inside a
    string nothing is counted; outside, braces move the depth. *)
Definition step (st : lexer) (c : ascii) : lexer :=
  if escaped st then
    {| depth := depth st; in_string := in_string st; escaped := false |}
  else if Ascii.eqb c "\" then
    {| depth := depth st; in_string := in_string st; escaped := true |}
  else if Ascii.eqb c dquote then
    {| depth := depth st; in_string := negb (in_string st);
       escaped := false |}
  else if in_string st then st
  else if Ascii.eqb c "{" then
    {| depth := depth st + 1; in_string := false; escaped := false |}
  else if Ascii.eqb c "}" then
    {| depth := depth st - 1; in_string := false; escaped := false |}
  else st.

Fixpoint run (st : lexer) (text : string) : lexer :=
  match text with
  | EmptyString => st
  | String c rest => run (step st c) rest
  end.

(** The nesting depth after the first [n] characters of [text]. *)
Definition depth_after (text : string) (n : nat) : Z :=
  depth (run start_of_scan (substring 0 n text)).

(** The length of the shortest non-empty prefix of [text] that ends at
    depth zero. *)
Definition first_balanced (text : string) : option nat :=
  List.find (fun n => depth_after text n =? 0)
            (seq 1 (String.length text)).

(** The third strategy: from the first opening brace, the text up to the
    brace that first closes it is decoded; no such brace, or a text that
    does not decode, is a failure. *)
Definition balanced_scan (json_loads : string -> option pyval)
  (raw : string) : pyval :=
  let start := find "{" raw in
  if start <? 0 then PNone
  else
    match first_balanced (slice_from raw start) with
    | Some n =>
        match json_loads (substring (Z.to_nat start) n raw) with
        | Some v => v
        | None => PNone
        end
    | None => PNone
    end.

End Spec.

(* ------------------------------------------------------------------ *)
(** ** What a delivered record holds                                    *)
(* ------------------------------------------------------------------ *)

Import Py.

(** [d.get(k, default)] on the items of a dict. *)
Definition field (d : dict) (k : string) (default : pyval) : pyval :=
  match dict_get k d with
  | Some v => v
  | None => default
  end.

(** The fields of a record that come from the resolved identifier,
    directory and transcript path. *)
Definition frame_view (agent : string) (sid cwd tp : pyval) (st : dict)
  : Prop :=
  dict_get "session_id" st = Some sid /\
  dict_get "cwd" st = Some cwd /\
  dict_get "agent_type" st = Some (PStr agent) /\
  dict_get "transcript_path" st = (if truthy tp then Some tp else None).

(** The fields of a record that come from the event of payload [d]. *)
Definition tool_view (json_loads : string -> option pyval) (d st : dict)
  : Prop :=
  let event := field d "hook_event_name" (PStr "") in
  let tool := field d "tool_name" PNone in
  let id := field d "tool_use_id" (PStr "") in
  dict_get "event" st = Some event /\
  dict_get "status" st = Some (PStr (Spec.status_of event)) /\
  dict_get "tool" st = (if Spec.tool_event event then Some tool else None) /\
  dict_get "tool_input" st =
    (if Spec.tool_event event
     then Some (Spec.resolve_tool_input json_loads (dict_get "tool_input" d))
     else None) /\
  dict_get "tool_use_id" st =
    (if Spec.tool_event event && truthy id then Some id else None) /\
  dict_get "tool_display" st =
    (if Spec.tool_event event && eq_str tool "Shell"
     then Some (PStr "Bash") else None).

(** The value a decoding attempt leaves: the decoded value, or [None]
    when the decoder raised. *)
Definition decoded (json_loads : string -> option pyval) (s : string)
  : pyval :=
  match json_loads s with
  | Some v => v
  | None => PNone
  end.

(** An identifier field that is a string, or is falsy (absent, null,
    zero, empty). *)
Definition str_or_falsy (v : pyval) : bool :=
  is_str v || negb (truthy v).

(** A [workspace_roots] whose first root can be taken: falsy, a list, or
    a string. *)
Definition roots_ok (v : pyval) : bool :=
  negb (truthy v) ||
  match v with
  | PList _ | PStr _ => true
  | _ => false
  end.

(** A raw session identifier the pi script can unwrap: falsy, a string,
    or a list or an object without ["/"] among its items or keys. *)
Definition raw_id_ok (v : pyval) : bool :=
  negb (truthy v) ||
  match v with
  | PStr _ => true
  | PList l => negb (existsb (fun x => eq_str x "/") l)
  | PDict items => negb (existsb (fun kv => String.eqb (fst kv) "/") items)
  | _ => false
  end.

(** The keys every record starts with, in this order, and the keys that
    may follow. *)
Definition base_keys : list string :=
  ["session_id"; "cwd"; "event"; "agent_type"; "status"].

Definition optional_keys : list string :=
  ["transcript_path"; "tool"; "tool_input"; "tool_use_id"; "tool_display"].

Definition well_keyed (st : dict) : Prop :=
  exists extra,
    map fst st = (base_keys ++ extra)%list /\
    incl extra optional_keys /\
    NoDup extra.

Lemma bind_some {A B} (m : exc A) (k : A -> exc B) (b : B) :
  bind m k = Some b -> exists a, m = Some a /\ k a = Some b.
Proof. destruct m; simpl; [eauto | discriminate]. Qed.

(** The eight comparisons of the [if]/[elif] chain, in its order. *)
Ltac split_event e :=
  destruct (String.eqb e "beforeSubmitPrompt") eqn:?;
  [| destruct (String.eqb e "preToolUse") eqn:?;
  [| destruct (String.eqb e "postToolUse") eqn:?;
  [| destruct (String.eqb e "stop") eqn:?;
  [| destruct (String.eqb e "subagentStop") eqn:?;
  [| destruct (String.eqb e "sessionStart") eqn:?;
  [| destruct (String.eqb e "sessionEnd") eqn:?;
  [| destruct (String.eqb e "preCompact") eqn:? ]]]]]]].

(** Runs the chain of [H : ... = Some st] on every kind of [event], with
    and without transcript path [tp], tool id [id] and a [Shell] tool. *)
Ltac run_chain H tp event tool id :=
  destruct (truthy tp) eqn:?;
  (let e := fresh "e" in
   destruct event as [| | | |e| |]; cbn [eq_str] in H;
   [| | | |split_event e| |]);
  repeat match type of H with
         | context [truthy id] => destruct (truthy id) eqn:?
         end;
  cbn in H;
  repeat match type of H with
         | context [eq_str tool "Shell"] =>
             destruct (eq_str tool "Shell") eqn:?
         end;
  injection H as <-.

(** Reads the fields of the record each run of the chain ends with. *)
Ltac read_record :=
  unfold frame_view, tool_view, Spec.status_of, Spec.status,
    Spec.tool_event;
  repeat match goal with
         | E : String.eqb ?e _ = true |- _ =>
             apply String.eqb_eq in E; subst e
         end;
  cbn;
  repeat match goal with
         | E : _ = _ |- _ => rewrite E
         end;
  cbn; repeat split; reflexivity.

Section Records.

Variable json_loads : string -> option pyval.

Lemma cursor_decode (d : dict) :
  Cursor.decode_tool_input json_loads (field d "tool_input" (PDict []))
  = Spec.resolve_tool_input json_loads (dict_get "tool_input" d).
Proof.
  unfold field, Spec.resolve_tool_input, Cursor.decode_tool_input.
  destruct (dict_get "tool_input" d) as [[]|]; try reflexivity.
  simpl. destruct (String.eqb s ""); reflexivity.
Qed.

Lemma pi_decode (d : dict) :
  Pi.decode_tool_input json_loads (field d "tool_input" (PDict []))
  = Spec.resolve_tool_input json_loads (dict_get "tool_input" d).
Proof.
  unfold field, Spec.resolve_tool_input, Pi.decode_tool_input.
  destruct (dict_get "tool_input" d) as [[]|]; try reflexivity.
  simpl. destruct (String.eqb s ""); reflexivity.
Qed.

(** Every record of the cursor script, field by field. *)
Lemma cursor_record (data : pyval) (st : dict) :
  Cursor.normalize json_loads data = Some st ->
  exists d sid cwd tp,
    data = PDict d /\
    Cursor.session_id_of data = Some sid /\
    Cursor.cwd_of data = Some cwd /\
    Cursor.transcript_path_of data = Some tp /\
    frame_view "cursor" sid cwd tp st /\
    tool_view json_loads d st.
Proof.
  intros H. unfold Cursor.normalize in H.
  destruct data as [| | | | | |d];
    [vm_compute in H; discriminate H .. |].
  apply bind_some in H as (sid & Hsid & H).
  cbn [get bind ret] in H.
  apply bind_some in H as (cwd & Hcwd & H).
  unfold Cursor.tool_input_of in H. cbn [get bind ret] in H.
  apply bind_some in H as (tp & Htp & H).
  cbn [get bind ret] in H.
  exists d, sid, cwd, tp.
  do 4 (split; [assumption || reflexivity |]).
  clear Hsid Hcwd Htp.
  unfold tool_view. rewrite <- cursor_decode.
  fold (field d "hook_event_name" (PStr "")) in *.
  fold (field d "tool_name" PNone) in *.
  fold (field d "tool_use_id" (PStr "")) in *.
  fold (field d "tool_input" (PDict [])) in *.
  generalize dependent (field d "hook_event_name" (PStr "")).
  generalize (field d "tool_name" PNone) (field d "tool_use_id" (PStr ""))
    (Cursor.decode_tool_input json_loads (field d "tool_input" (PDict []))).
  intros tool id input event H.
  run_chain H tp event tool id; read_record.
Qed.

(** Every record of the pi script, field by field. *)
Lemma pi_record (data : pyval) (st : dict) :
  Pi.normalize json_loads data = Some st ->
  exists d raw cwd tp sid,
    data = PDict d /\
    Pi.raw_session_id_of data = Some raw /\
    Pi.cwd_of data = Some cwd /\
    Pi.unwrap raw = Some (tp, sid) /\
    frame_view "pi" (Pi.or_unknown sid) cwd tp st /\
    tool_view json_loads d st.
Proof.
  intros H. unfold Pi.normalize in H.
  destruct data as [| | | | | |d];
    [vm_compute in H; discriminate H .. |].
  apply bind_some in H as (raw & Hraw & H).
  cbn [get bind ret] in H.
  apply bind_some in H as (cwd & Hcwd & H).
  unfold Pi.tool_input_of in H. cbn [get bind ret] in H.
  apply bind_some in H as ([tp sid] & Hpath & H).
  cbn [get bind ret] in H.
  exists d, raw, cwd, tp, sid.
  do 4 (split; [assumption || reflexivity |]).
  clear Hraw Hcwd Hpath.
  unfold tool_view. rewrite <- pi_decode.
  fold (field d "hook_event_name" (PStr "")) in *.
  fold (field d "tool_name" PNone) in *.
  fold (field d "tool_use_id" (PStr "")) in *.
  fold (field d "tool_input" (PDict [])) in *.
  generalize dependent (field d "hook_event_name" (PStr "")).
  generalize (field d "tool_name" PNone) (field d "tool_use_id" (PStr ""))
    (Pi.decode_tool_input json_loads (field d "tool_input" (PDict [])))
    (Pi.or_unknown sid).
  intros tool id input sid' event H.
  run_chain H tp event tool id; read_record.
Qed.

End Records.

(** Once the identifier, the directory and the transcript path are
    resolved, the event chain always ends with a record. *)
Lemma cursor_normalize_returns (jl : string -> option pyval) (d : dict)
  (sid cwd tp : pyval) :
  Cursor.session_id_of (PDict d) = Some sid ->
  Cursor.cwd_of (PDict d) = Some cwd ->
  Cursor.transcript_path_of (PDict d) = Some tp ->
  exists st, Cursor.normalize jl (PDict d) = Some st.
Proof.
  intros Hs Hc Ht. unfold Cursor.normalize, Cursor.tool_input_of.
  rewrite Hs, Hc, Ht. cbn [get bind ret].
  repeat match goal with
         | |- exists _, (if ?b then _ else _) = _ => destruct b
         end; eexists; reflexivity.
Qed.

Lemma pi_normalize_returns (jl : string -> option pyval) (d : dict)
  (raw cwd : pyval) (path : pyval * pyval) :
  Pi.raw_session_id_of (PDict d) = Some raw ->
  Pi.cwd_of (PDict d) = Some cwd ->
  Pi.unwrap raw = Some path ->
  exists st, Pi.normalize jl (PDict d) = Some st.
Proof.
  intros Hs Hc Hp. unfold Pi.normalize, Pi.tool_input_of.
  rewrite Hs. cbn [get bind ret]. rewrite Hc. cbn [get bind ret].
  rewrite Hp. cbn [get bind ret]. destruct path as [tp sid].
  repeat match goal with
         | |- exists _, (if ?b then _ else _) = _ => destruct b
         end; eexists; reflexivity.
Qed.

(* ------------------------------------------------------------------ *)
(** ** Status derivation and tool fields                                *)
(* ------------------------------------------------------------------ *)


(** The rows of the status table, and its default. *)
Lemma status_rows :
  Spec.status "beforeSubmitPrompt" = "processing" /\
  Spec.status "preToolUse" = "running_tool" /\
  Spec.status "postToolUse" = "processing" /\
  Spec.status "stop" = "waiting_for_input" /\
  Spec.status "subagentStop" = "waiting_for_input" /\
  Spec.status "sessionStart" = "waiting_for_input" /\
  Spec.status "sessionEnd" = "ended" /\
  Spec.status "preCompact" = "compacting" /\
  Spec.status "" = "unknown" /\
  forall e, ~ In e (map fst Spec.status_table) -> Spec.status e = "unknown".
Proof.
  repeat split. intros e H. unfold Spec.status. cbn in *.
  repeat match goal with
         | |- context [String.eqb e ?k] =>
             destruct (String.eqb_spec e k); [subst e; exfalso; apply H; tauto |]
         end.
  reflexivity.
Qed.

(** The cases of the resolution of [tool_input]. *)
Lemma resolve_tool_input_cases (json_loads : string -> option pyval) :
  Spec.resolve_tool_input json_loads None = PDict [] /\
  Spec.resolve_tool_input json_loads (Some (PStr "")) = PDict [] /\
  (forall s, json_loads s = None ->
     Spec.resolve_tool_input json_loads (Some (PStr s)) = PDict []) /\
  (forall s v, s <> "" -> json_loads s = Some v ->
     Spec.resolve_tool_input json_loads (Some (PStr s)) = v) /\
  (forall v, is_str v = false ->
     Spec.resolve_tool_input json_loads (Some v) = v).
Proof.
  repeat split.
  - intros s H. cbn. rewrite H. destruct (String.eqb s ""); reflexivity.
  - intros s v Hs H. cbn. rewrite H.
    apply String.eqb_neq in Hs. rewrite Hs. reflexivity.
  - intros [] H; try reflexivity. discriminate H.
Qed.

(** Both scripts build the event fields of a record in the same way. *)
Lemma record_tool_view (json_loads : string -> option pyval)
  (data : pyval) (st : dict) :
  Cursor.normalize json_loads data = Some st \/
  Pi.normalize json_loads data = Some st ->
  exists d, data = PDict d /\ tool_view json_loads d st.
Proof.
  intros [H | H].
  - apply cursor_record in H as (d & ? & ? & ? & ? & ? & ? & ? & ? & ?).
    eauto.
  - apply pi_record in H as (d & ? & ? & ? & ? & ? & ? & ? & ? & ? & ?).
    eauto.
Qed.



(** C8.  The resolution of [tool_input] in both scripts is step 3 of the
    normalizer: a string is decoded as nested JSON, with the empty object
    when decoding fails or the string is empty; any other value is passed
    through; an absent field is the empty object.  The string
    [{"path":"/tmp"}] resolves to the object with [path] set to [/tmp],
    and the empty string to the empty object. *)
Theorem tool_input_resolution (json_loads : string -> option pyval)
  (d : dict) :
  Cursor.tool_input_of json_loads (PDict d)
    = Some (Spec.resolve_tool_input json_loads (dict_get "tool_input" d)) /\
  Pi.tool_input_of json_loads (PDict d)
    = Some (Spec.resolve_tool_input json_loads (dict_get "tool_input" d)) /\
  Cursor.tool_input_of Json.loads
    (PDict [("tool_input", PStr (Json.text "{'path':'/tmp'}"))])
    = Some (PDict [("path", PStr "/tmp")]) /\
  Pi.tool_input_of Json.loads
    (PDict [("tool_input", PStr (Json.text "{'path':'/tmp'}"))])
    = Some (PDict [("path", PStr "/tmp")]) /\
  Cursor.tool_input_of Json.loads (PDict [("tool_input", PStr "")])
    = Some (PDict []) /\
  Pi.tool_input_of Json.loads (PDict [("tool_input", PStr "")])
    = Some (PDict []).
Proof.
  repeat split; try (vm_compute; reflexivity).
  - unfold Cursor.tool_input_of. cbn [get bind ret].
    rewrite <- cursor_decode. reflexivity.
  - unfold Pi.tool_input_of. cbn [get bind ret].
    rewrite <- pi_decode. reflexivity.
Qed.

(** C9.  On the same payload the two scripts derive the same [event],
    [status], [tool], [tool_input], [tool_use_id] and [tool_display]. *)
Theorem status_same_across_profiles (json_loads : string -> option pyval)
  (data : pyval) (cursor_st pi_st : dict) :
  Cursor.normalize json_loads data = Some cursor_st ->
  Pi.normalize json_loads data = Some pi_st ->
  forall k,
    In k ["event"; "status"; "tool"; "tool_input"; "tool_use_id";
          "tool_display"] ->
    dict_get k cursor_st = dict_get k pi_st.
Proof.
  intros Hc Hp k Hk.
  assert (Hc' := record_tool_view json_loads data cursor_st (or_introl Hc)).
  assert (Hp' := record_tool_view json_loads data pi_st (or_intror Hp)).
  destruct Hc' as (d & -> & c1 & c2 & c3 & c4 & c5 & c6).
  destruct Hp' as (d' & E & p1 & p2 & p3 & p4 & p5 & p6).
  injection E as <-.
  simpl in Hk.
  destruct Hk as [<- | [<- | [<- | [<- | [<- | [<- | []]]]]]];
    congruence.
Qed.

Lemma status_same_across_profiles_witness :
  exists cursor_st pi_st,
    Cursor.normalize Json.loads
      (PDict [("hook_event_name", PStr "preToolUse");
              ("tool_name", PStr "Shell");
              ("session_id", PStr "/s/t_u.jsonl")]) = Some cursor_st /\
    Pi.normalize Json.loads
      (PDict [("hook_event_name", PStr "preToolUse");
              ("tool_name", PStr "Shell");
              ("session_id", PStr "/s/t_u.jsonl")]) = Some pi_st /\
    dict_get "status" cursor_st = dict_get "status" pi_st /\
    dict_get "tool_display" cursor_st = dict_get "tool_display" pi_st.
Proof.
  eexists. eexists.
  split; [vm_compute; reflexivity |].
  split; [vm_compute; reflexivity |].
  split;
    apply (status_same_across_profiles Json.loads
             (PDict [("hook_event_name", PStr "preToolUse");
                     ("tool_name", PStr "Shell");
                     ("session_id", PStr "/s/t_u.jsonl")]));
    try (vm_compute; reflexivity);
    simpl; tauto.
Defined.



(* ------------------------------------------------------------------ *)
(** ** The process contract and payloads that are not objects           *)
(* ------------------------------------------------------------------ *)

(** Whatever is read, the scripts exit with status 0 and leave standard
    error empty; [{}] is printed exactly when [main] returns. *)
Lemma script_contract (json_loads : string -> option pyval)
  (stdin : option string) :
  let c := Cursor.script json_loads stdin in
  let p := Pi.script json_loads stdin in
  exit_status c = 0 /\ stderr c = "" /\
  exit_status p = 0 /\ stderr p = "" /\
  (stdout c = ["{}"] <-> Cursor.main json_loads stdin <> None) /\
  (stdout p = ["{}"] <-> Pi.main json_loads stdin <> None).
Proof.
  unfold Cursor.script, Pi.script.
  destruct (Cursor.main json_loads stdin), (Pi.main json_loads stdin);
    cbn; repeat split; intros; congruence.
Qed.

(** The first strategy returns whatever the whole input decodes to. *)
Lemma parse_input_direct (json_loads : string -> option pyval)
  (raw : string) (v : pyval) :
  json_loads raw = Some v ->
  Cursor.parse_input json_loads raw = v /\ Pi.parse_input json_loads raw = v.
Proof.
  intros H. unfold Cursor.parse_input, Pi.parse_input.
  rewrite H. auto.
Qed.

(** A decoded payload that is neither an object nor null makes [main]
    raise at its first [data.get], so nothing is printed. *)
Lemma no_output_on_non_object (json_loads : string -> option pyval)
  (raw : string) (v : pyval) :
  json_loads raw = Some v ->
  is_none v = false ->
  (forall d, v <> PDict d) ->
  stdout (Cursor.script json_loads (Some raw)) = [] /\
  stdout (Pi.script json_loads (Some raw)) = [].
Proof.
  intros H Hn Hd.
  destruct (parse_input_direct json_loads raw v H) as [Ec Ep].
  unfold Cursor.script, Pi.script, Cursor.main, Pi.main.
  rewrite Ec, Ep, Hn.
  destruct v; try discriminate Hn; try (split; reflexivity).
  exfalso. eapply Hd. reflexivity.
Qed.

(** C1, at the failing input.  On the bare JSON string
    ["not json at all"] both scripts print nothing, while on the empty
    input and on text that is not JSON they print [{}]. *)
Theorem bare_string_prints_nothing :
  Cursor.script Json.loads (Some (Json.text "'not json at all'"))
    = {| stdout := []; stderr := ""; exit_status := 0; sent := None |} /\
  Pi.script Json.loads (Some (Json.text "'not json at all'"))
    = {| stdout := []; stderr := ""; exit_status := 0; sent := None |} /\
  stdout (Cursor.script Json.loads (Some "")) = ["{}"] /\
  stdout (Pi.script Json.loads (Some "")) = ["{}"] /\
  stdout (Cursor.script Json.loads (Some "not json at all")) = ["{}"] /\
  stdout (Pi.script Json.loads (Some "not json at all")) = ["{}"].
Proof. repeat split; vm_compute; reflexivity. Qed.

(** C2, at the failing inputs.  [parse_input] returns a string, a number,
    an array and a boolean when the whole input is one. *)
Theorem parse_input_returns_non_objects :
  Cursor.parse_input Json.loads (Json.text "'not json at all'")
    = PStr "not json at all" /\
  Pi.parse_input Json.loads (Json.text "'not json at all'")
    = PStr "not json at all" /\
  Cursor.parse_input Json.loads "42" = PInt 42 /\
  Pi.parse_input Json.loads "42" = PInt 42 /\
  Cursor.parse_input Json.loads "[1, {}]" = PList [PInt 1; PDict []] /\
  Pi.parse_input Json.loads "[1, {}]" = PList [PInt 1; PDict []] /\
  Cursor.parse_input Json.loads "true" = PBool true /\
  Pi.parse_input Json.loads "true" = PBool true.
Proof. repeat split; vm_compute; reflexivity. Qed.

(** C3, at the failing inputs.  A [workspace_roots] that is a non-empty
    object or a number, and in the cursor script a [transcript_path] that
    is a number, make the normalizer raise; no record is sent and nothing
    is printed. *)
Theorem normalize_raises_on_malformed_fields :
  Cursor.normalize Json.loads
    (PDict [("workspace_roots", PDict [("a", PInt 1)])]) = None /\
  Pi.normalize Json.loads
    (PDict [("workspace_roots", PDict [("a", PInt 1)])]) = None /\
  Cursor.normalize Json.loads (PDict [("workspace_roots", PInt 5)]) = None /\
  Pi.normalize Json.loads (PDict [("workspace_roots", PInt 5)]) = None /\
  Cursor.normalize Json.loads (PDict [("transcript_path", PInt 5)]) = None /\
  Cursor.script Json.loads (Some (Json.text "{'workspace_roots': {'a': 1}}"))
    = {| stdout := []; stderr := ""; exit_status := 0; sent := None |} /\
  Pi.script Json.loads (Some (Json.text "{'workspace_roots': {'a': 1}}"))
    = {| stdout := []; stderr := ""; exit_status := 0; sent := None |}.
Proof. repeat split; vm_compute; reflexivity. Qed.

(* ------------------------------------------------------------------ *)
(** ** Strings                                                          *)
(* ------------------------------------------------------------------ *)

Lemma length_app (a b : string) :
  String.length (a ++ b) = (String.length a + String.length b)%nat.
Proof. induction a; simpl; congruence. Qed.

Lemma substring_whole (s : string) : substring 0 (String.length s) s = s.
Proof. induction s; simpl; congruence. Qed.

Lemma substring_skip (a b : string) (n : nat) :
  substring (String.length a) n (a ++ b) = substring 0 n b.
Proof. induction a; simpl; auto. Qed.

Lemma substring_prefix (a b : string) :
  substring 0 (String.length a) (a ++ b) = a.
Proof.
  induction a; simpl.
  - destruct b; reflexivity.
  - congruence.
Qed.

Lemma find_from_split (c : ascii) (s : string) (i : Z) :
  0 <= i ->
  find_from c s i = -1 \/
  exists pre r, s = pre ++ String c r /\
                find_from c s i = i + Z.of_nat (String.length pre).
Proof.
  revert i. induction s as [|a s IH]; intros i Hi; simpl.
  - left; reflexivity.
  - destruct (Ascii.eqb a c) eqn:E.
    + apply Ascii.eqb_eq in E. subst a. right.
      exists EmptyString, s. simpl. split; [reflexivity | lia].
    + destruct (IH (i + 1)) as [H | (pre & r & -> & H)]; [lia | auto |].
      right. exists (String a pre), r. simpl String.length.
      split; [reflexivity | lia].
Qed.

Lemma slice_from_find (c : ascii) (raw : string) :
  0 <= find c raw ->
  exists pre r,
    raw = pre ++ String c r /\
    Z.to_nat (find c raw) = String.length pre /\
    slice_from raw (find c raw) = String c r.
Proof.
  intros H. unfold find in *.
  destruct (find_from_split c raw 0) as [E | (pre & r & -> & E)];
    [lia | lia |].
  exists pre, r. split; [reflexivity |].
  unfold slice_from. rewrite E. simpl (0 + _).
  rewrite Nat2Z.id. split; [reflexivity |].
  rewrite substring_skip, length_app.
  replace (String.length pre + String.length (String c r) - String.length pre)%nat
    with (String.length (String c r)) by lia.
  apply substring_whole.
Qed.

Lemma find_seq_shift (f : nat -> bool) (a len : nat) :
  List.find f (seq (S a) len)
  = option_map S (List.find (fun n => f (S n)) (seq a len)).
Proof.
  revert a. induction len as [|len IH]; intros a; simpl.
  - reflexivity.
  - destruct (f (S a)); [reflexivity | apply IH].
Qed.

Lemma pi_scan_cursor_scan jl raw start rest :
  forall i depth in_string escape,
    Pi.scan jl raw start rest i depth in_string escape
    = Cursor.scan jl raw start rest i depth in_string escape.
Proof.
  induction rest as [|c rest IH]; intros; cbn; [reflexivity |].
  rewrite !IH. reflexivity.
Qed.


Lemma append_assoc (a b c : string) : (a ++ b) ++ c = a ++ b ++ c.
Proof. induction a; simpl; congruence. Qed.

Lemma contains_app (c : ascii) (a b : string) :
  contains c (a ++ b) = contains c a || contains c b.
Proof.
  induction a as [|x a IH]; simpl; [reflexivity |].
  rewrite IH. apply orb_assoc.
Qed.

Lemma contains_nonempty (c : ascii) (s : string) :
  contains c s = true -> String.eqb s "" = false.
Proof. destruct s; [discriminate | reflexivity]. Qed.

Lemma rfind_from_absent (c : ascii) (s : string) (i last : Z) :
  contains c s = false -> rfind_from c s i last = last.
Proof.
  revert i last. induction s as [|x s IH]; intros i last H; simpl in *.
  - reflexivity.
  - apply orb_false_iff in H as [-> H]. auto.
Qed.

Lemma rfind_from_app (c : ascii) (a b : string) (i last : Z) :
  rfind_from c (a ++ b) i last
  = rfind_from c b (i + Z.of_nat (String.length a)) (rfind_from c a i last).
Proof.
  revert i last. induction a as [|x a IH]; intros i last.
  - simpl. f_equal. lia.
  - cbn [append rfind_from String.length]. rewrite IH.
    f_equal. lia.
Qed.

Lemma basename_after_slash (dir rest : string) :
  contains "/" rest = false ->
  basename (dir ++ String "/" rest) = rest.
Proof.
  intros H. unfold basename, rfind.
  rewrite rfind_from_app. cbn [rfind_from].
  rewrite Ascii.eqb_refl, rfind_from_absent by assumption.
  unfold slice_from.
  replace (Z.to_nat (0 + Z.of_nat (String.length dir) + 1))
    with (String.length (dir ++ "/")) by (rewrite length_app; simpl; lia).
  replace (dir ++ String "/" rest) with ((dir ++ "/") ++ rest)
    by (rewrite append_assoc; reflexivity).
  rewrite substring_skip, length_app.
  replace (String.length (dir ++ "/") + String.length rest
           - String.length (dir ++ "/"))%nat
    with (String.length rest) by lia.
  apply substring_whole.
Qed.

Lemma endswith_app (a suffix : string) : endswith (a ++ suffix) suffix = true.
Proof.
  unfold endswith. rewrite length_app.
  replace (String.length a + String.length suffix - String.length suffix)%nat
    with (String.length a) by lia.
  rewrite substring_skip, substring_whole, String.eqb_refl.
  rewrite andb_true_r. apply Nat.leb_le. lia.
Qed.

Lemma drop_last_app (a suffix : string) :
  drop_last (a ++ suffix) (String.length suffix) = a.
Proof.
  unfold drop_last. rewrite length_app.
  replace (String.length a + String.length suffix - String.length suffix)%nat
    with (String.length a) by lia.
  apply substring_prefix.
Qed.

Lemma partition_app (c : ascii) (a b : string) :
  contains c a = false ->
  partition c (a ++ String c b) = Some (a, b).
Proof.
  induction a as [|x a IH]; simpl; intros H.
  - rewrite Ascii.eqb_refl. reflexivity.
  - apply orb_false_iff in H as [-> H]. rewrite IH by assumption.
    reflexivity.
Qed.


(* ------------------------------------------------------------------ *)
(** ** The depth-balanced scan                                          *)
(* ------------------------------------------------------------------ *)

Lemma scan_first_balanced jl raw start rest :
  forall (st : Spec.lexer) (i : Z),
    0 < Spec.depth st ->
    Cursor.scan jl raw start rest i
      (Spec.depth st) (Spec.in_string st) (Spec.escaped st)
    = match List.find
              (fun n => Spec.depth (Spec.run st (substring 0 n rest)) =? 0)
              (seq 1 (String.length rest)) with
      | Some n => decoded jl (slice raw start (i + Z.of_nat n))
      | None => PNone
      end.
Proof.
  induction rest as [|c rest IH]; intros st i Hd.
  - reflexivity.
  - cbn [String.length seq List.find].
    replace (substring 0 1 (String c rest)) with (String c EmptyString)
      by (simpl; destruct rest; reflexivity).
    cbn [Spec.run].
    rewrite find_seq_shift.
    cbn [substring Spec.run].
    destruct st as [d s e].
    cbn [Spec.depth Spec.in_string Spec.escaped] in *.
    assert (Hd0 : (d =? 0) = false) by (apply Z.eqb_neq; lia).
    assert (Hd1 : (d + 1 =? 0) = false) by (apply Z.eqb_neq; lia).
    cbn [Cursor.scan]. unfold Spec.step.
    cbn [Spec.depth Spec.in_string Spec.escaped].
    destruct e;
      [| destruct (Ascii.eqb c "\");
      [| destruct (Ascii.eqb c dquote);
      [| destruct s;
      [| destruct (Ascii.eqb c "{");
      [| destruct (Ascii.eqb c "}");
      [ destruct (d - 1 =? 0) eqn:Hz |]]]]]];
      cbn [andb negb Spec.depth];
      rewrite ?Hd0, ?Hd1, ?Hz;
      try reflexivity;
      match goal with
      | |- Cursor.scan _ _ _ _ _ ?d' ?s' ?e' = _ =>
          let IH' := fresh "IH" in
          assert (IH' := IH {| Spec.depth := d'; Spec.in_string := s';
                               Spec.escaped := e' |} (i + 1));
          cbn [Spec.depth Spec.in_string Spec.escaped] in IH';
          rewrite IH' by (try apply Z.eqb_neq in Hz; lia);
          match goal with
          | |- context [List.find ?f ?l] => destruct (List.find f l)
          end;
          cbn [option_map]; [| reflexivity];
          rewrite Nat2Z.inj_succ; do 2 f_equal; lia
      end.
Qed.

(** The loop of either script finds the brace the specification's scan
    finds, and decodes the same text. *)
Lemma balanced_is_balanced_scan (jl : string -> option pyval)
  (raw : string) :
  Cursor.balanced jl raw (find "{" raw) = Spec.balanced_scan jl raw /\
  Pi.balanced jl raw (find "{" raw) = Spec.balanced_scan jl raw.
Proof.
  assert (Cursor.balanced jl raw (find "{" raw) = Spec.balanced_scan jl raw).
  { unfold Cursor.balanced, Spec.balanced_scan.
    destruct (0 <=? find "{" raw) eqn:Hs.
    - apply Z.leb_le in Hs.
      replace (find "{" raw <? 0) with false by (symmetry; apply Z.ltb_ge; lia).
      destruct (slice_from_find "{" raw Hs) as (pre & r & Hraw & Hlen & Hsl).
      rewrite Hsl. unfold Spec.first_balanced, Spec.depth_after.
      cbn [String.length seq List.find].
      replace (substring 0 1 (String "{" r)) with (String "{"%char EmptyString)
        by (simpl; destruct r; reflexivity).
      cbn [Spec.run Cursor.scan].
      rewrite find_seq_shift. cbn [substring Spec.run].
      change (Spec.step Spec.start_of_scan "{") with
        {| Spec.depth := 1; Spec.in_string := false; Spec.escaped := false |}.
      simpl (Ascii.eqb _ _). cbn [andb negb Spec.depth].
      change (1 =? 0) with false. change (0 + 1) with 1. cbv iota.
      assert (L := scan_first_balanced jl raw (find "{" raw) r
                     {| Spec.depth := 1; Spec.in_string := false;
                        Spec.escaped := false |} (find "{" raw + 1)).
      cbn [Spec.depth Spec.in_string Spec.escaped] in L.
      rewrite L by lia.
      match goal with
      | |- context [List.find ?f ?l] => destruct (List.find f l) as [n|]
      end; cbn [option_map]; [| reflexivity].
      unfold decoded, slice.
      replace (Z.to_nat (find "{" raw + 1 + Z.of_nat n - find "{" raw))
        with (S n) by lia.
      reflexivity.
    - apply Z.leb_gt in Hs.
      replace (find "{" raw <? 0) with true by (symmetry; apply Z.ltb_lt; lia).
      reflexivity. }
  split; [assumption |].
  rewrite <- H. unfold Pi.balanced, Cursor.balanced.
  rewrite pi_scan_cursor_scan. reflexivity.
Qed.


(** C6.  The third strategy of [parse_input] is the depth-balanced scan
    of the specification: it starts at the first opening brace, follows
    the nesting depth with quotes toggling the string context unless
    escaped by an unescaped backslash and braces inside strings not
    counted, decodes the text from the opening brace to the brace that
    first brings the depth to zero, and fails, without looking at any later
    candidate, when that text does not decode or no such brace exists. *)
Theorem balanced_scan_refines (json_loads : string -> option pyval)
  (raw : string) :
  Cursor.balanced json_loads raw (find "{" raw)
    = Spec.balanced_scan json_loads raw /\
  Pi.balanced json_loads raw (find "{" raw)
    = Spec.balanced_scan json_loads raw.
Proof. exact (balanced_is_balanced_scan json_loads raw). Qed.

(** The scan is reached when the first two strategies fail. *)
Lemma parse_input_third_strategy (jl : string -> option pyval)
  (raw : string) :
  jl raw = None ->
  jl (slice raw (find "{" raw) (rfind "}" raw + 1)) = None ->
  Cursor.parse_input jl raw = Spec.balanced_scan jl raw /\
  Pi.parse_input jl raw = Spec.balanced_scan jl raw.
Proof.
  intros H1 H2.
  destruct (balanced_is_balanced_scan jl raw) as [Ec Ep].
  unfold Cursor.parse_input, Pi.parse_input.
  rewrite H1, H2, Ec, Ep.
  destruct ((0 <=? find "{" raw) && (find "{" raw <? rfind "}" raw));
    auto.
Qed.

(** A first candidate that does not decode ends the scan, even when a
    decodable object follows; a brace inside a string closes nothing. *)
Example scan_stops_at_first_candidate :
  Cursor.parse_input Json.loads (Json.text "x {bad} {'a':1} }") = PNone /\
  Pi.parse_input Json.loads (Json.text "x {bad} {'a':1} }") = PNone /\
  Cursor.parse_input Json.loads (Json.text "{'a':'}'} trailing } x")
    = PDict [("a", PStr "}")].
Proof. repeat split; vm_compute; reflexivity. Qed.

(* ------------------------------------------------------------------ *)
(** ** Session identifiers                                              *)
(* ------------------------------------------------------------------ *)

Lemma unwrap_generated_path (dir ts uuid : string) :
  contains "/" ts = false ->
  contains "_" ts = false ->
  contains "/" uuid = false ->
  Pi.unwrap (PStr (dir ++ "/" ++ ts ++ "_" ++ uuid ++ ".jsonl"))
  = Some (PStr (dir ++ "/" ++ ts ++ "_" ++ uuid ++ ".jsonl"), PStr uuid).
Proof.
  intros Hts Hts' Huuid.
  assert (Hrest : contains "/" (ts ++ "_" ++ uuid ++ ".jsonl") = false).
  { rewrite !contains_app, Hts, Huuid. reflexivity. }
  assert (Hin : contains "/" (dir ++ "/" ++ ts ++ "_" ++ uuid ++ ".jsonl")
                = true).
  { rewrite contains_app. simpl. apply orb_true_r. }
  unfold Pi.unwrap. cbn [truthy contains_slash path_basename bind ret].
  rewrite (contains_nonempty _ _ Hin), Hin. cbn [negb].
  change ("/" ++ ts ++ "_" ++ uuid ++ ".jsonl")
    with (String "/" (ts ++ "_" ++ uuid ++ ".jsonl")).
  rewrite basename_after_slash by assumption.
  replace (ts ++ "_" ++ uuid ++ ".jsonl")
    with ((ts ++ "_" ++ uuid) ++ ".jsonl")
    by (rewrite !append_assoc; reflexivity).
  rewrite endswith_app.
  change 6%nat with (String.length ".jsonl").
  rewrite drop_last_app.
  unfold split1.
  change ("_" ++ uuid) with (String "_" uuid).
  rewrite partition_app by assumption.
  reflexivity.
Qed.




(** C4, as stated, fails: the bare file name has no ["/"], so the pi
    script sends it unchanged as [session_id] (and the cursor script has
    no path rule at all). *)
Lemma bare_filename_passes_through :
  exists st,
    sent (Pi.script Json.loads
            (Some (Json.text "{'session_id': '20240101T000000_550e8400-e29b-41d4-a716-446655440000.jsonl'}")))
      = Some st /\
    dict_get "session_id" st
      = Some (PStr "20240101T000000_550e8400-e29b-41d4-a716-446655440000.jsonl") /\
    dict_get "session_id" st
      <> Some (PStr "550e8400-e29b-41d4-a716-446655440000").
Proof.
  eexists. split; [vm_compute; reflexivity |].
  split; [vm_compute; reflexivity | vm_compute; discriminate].
Qed.

(** C4, amended.  In the pi script a raw session identifier that is a path
    [dir/ts_uuid.jsonl], where neither [ts] nor [uuid] has a ["/"] and
    [ts] has no ["_"], gives the identifier [uuid] and is itself the
    transcript path. *)
Theorem path_session_id_is_uuid (json_loads : string -> option pyval)
  (d : dict) (st : dict) (dir ts uuid : string) :
  dict_get "session_id" d
    = Some (PStr (dir ++ "/" ++ ts ++ "_" ++ uuid ++ ".jsonl")) ->
  contains "/" ts = false ->
  contains "_" ts = false ->
  contains "/" uuid = false ->
  uuid <> "" ->
  uuid <> "ephemeral" ->
  Pi.normalize json_loads (PDict d) = Some st ->
  dict_get "session_id" st = Some (PStr uuid) /\
  dict_get "transcript_path" st
    = Some (PStr (dir ++ "/" ++ ts ++ "_" ++ uuid ++ ".jsonl")).
Proof.
  intros Hd Hts Hts' Huuid Hne Heph H.
  apply pi_record in H
    as (d' & raw & cwd & tp & sid & E & Hraw & _ & Hun & Hframe & _).
  injection E as <-.
  unfold Pi.raw_session_id_of in Hraw. cbn [get bind ret] in Hraw.
  rewrite Hd in Hraw.
  assert (Hin : contains "/" (dir ++ "/" ++ ts ++ "_" ++ uuid ++ ".jsonl")
                = true).
  { rewrite contains_app. simpl. apply orb_true_r. }
  cbn [truthy] in Hraw. rewrite (contains_nonempty _ _ Hin) in Hraw.
  cbn [negb] in Hraw. injection Hraw as <-.
  assert (U := unwrap_generated_path dir ts uuid Hts Hts' Huuid).
  cbn [append] in U, Hun. rewrite U in Hun. clear U.
  injection Hun as <- <-.
  destruct Hframe as (Hsid & _ & _ & Htp).
  split.
  - rewrite Hsid. unfold Pi.or_unknown. cbn [truthy eq_str].
    apply String.eqb_neq in Hne, Heph. rewrite Hne, Heph. reflexivity.
  - rewrite Htp. cbn [truthy append] in *.
    rewrite (contains_nonempty _ _ Hin). reflexivity.
Qed.

Lemma path_session_id_is_uuid_witness :
  exists st,
    Pi.normalize Json.loads
      (PDict [("session_id",
               PStr "/sessions/20240101T000000_550e8400-e29b-41d4-a716-446655440000.jsonl")])
      = Some st /\
    dict_get "session_id" st
      = Some (PStr "550e8400-e29b-41d4-a716-446655440000") /\
    dict_get "transcript_path" st
      = Some (PStr "/sessions/20240101T000000_550e8400-e29b-41d4-a716-446655440000.jsonl").
Proof.
  eexists. split.
  - vm_compute. reflexivity.
  - apply (path_session_id_is_uuid Json.loads
             [("session_id",
               PStr "/sessions/20240101T000000_550e8400-e29b-41d4-a716-446655440000.jsonl")]
             _ "/sessions" "20240101T000000"
             "550e8400-e29b-41d4-a716-446655440000").
    + reflexivity.
    + reflexivity.
    + reflexivity.
    + reflexivity.
    + discriminate.
    + discriminate.
    + vm_compute. reflexivity.
Defined.




(* ------------------------------------------------------------------ *)
(** ** The decoder on an example                                        *)
(* ------------------------------------------------------------------ *)

(** White space, nesting, an escape, a float, and a repeated key whose
    later value replaces the earlier one in place. *)
Example loads_ex1 :
  Json.loads (Json.text "{'a': 1, 'b': [true, null, 'xA\n'], 'a': 2.50e1}")
  = Some (Py.PDict [("a", Py.PFloat (Py.FDec 250 (-1)));
                    ("b", Py.PList [Py.PBool true; Py.PNone;
                                    Py.PStr ("xA" ++ String (Json.chr 10) "")])]).
Proof. vm_compute. reflexivity. Qed.

(* ------------------------------------------------------------------ *)
(** ** More on the extractor                                            *)
(* ------------------------------------------------------------------ *)

Lemma find_from_absent (c : ascii) (s : string) (i : Z) :
  contains c s = false -> find_from c s i = -1.
Proof.
  revert i. induction s as [|a s IH]; intros i H; simpl in *.
  - reflexivity.
  - apply orb_false_iff in H as [-> H]. auto.
Qed.

Lemma find_from_first (c : ascii) (pre r : string) (i : Z) :
  contains c pre = false ->
  find_from c (pre ++ String c r) i = i + Z.of_nat (String.length pre).
Proof.
  revert i. induction pre as [|a pre IH]; intros i H; simpl in *.
  - rewrite Ascii.eqb_refl. lia.
  - apply orb_false_iff in H as [-> H]. rewrite IH by assumption. lia.
Qed.

Lemma rfind_last (c : ascii) (x post : string) :
  contains c post = false ->
  rfind c (x ++ String c post) = Z.of_nat (String.length x).
Proof.
  intros H. unfold rfind. rewrite rfind_from_app. cbn [rfind_from].
  rewrite Ascii.eqb_refl, rfind_from_absent by assumption. lia.
Qed.

Lemma pi_parse_cursor_parse (jl : string -> option pyval) (raw : string) :
  Pi.parse_input jl raw = Cursor.parse_input jl raw.
Proof.
  unfold Pi.parse_input, Cursor.parse_input, Pi.balanced, Cursor.balanced.
  rewrite pi_scan_cursor_scan. reflexivity.
Qed.

(** X1.  The extractor is the same function in the two scripts: on every
    input and with every decoder they return the same value. *)
Theorem parse_input_same_in_both (json_loads : string -> option pyval)
  (raw : string) :
  Pi.parse_input json_loads raw = Cursor.parse_input json_loads raw.
Proof. exact (pi_parse_cursor_parse json_loads raw). Qed.

(** X2.  Text without an opening brace that does not decode as a whole
    gives no payload: nothing is sent and [{}] is printed. *)
Theorem no_brace_no_payload (json_loads : string -> option pyval)
  (raw : string) :
  contains "{" raw = false ->
  json_loads raw = None ->
  Cursor.parse_input json_loads raw = PNone /\
  Cursor.script json_loads (Some raw)
    = {| stdout := ["{}"]; stderr := ""; exit_status := 0; sent := None |} /\
  Pi.script json_loads (Some raw)
    = {| stdout := ["{}"]; stderr := ""; exit_status := 0; sent := None |}.
Proof.
  intros Hb Hj.
  assert (E : Cursor.parse_input json_loads raw = PNone).
  { unfold Cursor.parse_input, Cursor.balanced, find.
    rewrite Hj, (find_from_absent _ _ _ Hb). reflexivity. }
  split; [exact E |].
  unfold Cursor.script, Pi.script, Cursor.main, Pi.main.
  assert (Ep := eq_trans (pi_parse_cursor_parse json_loads raw) E).
  rewrite E, Ep. split; reflexivity.
Qed.

Lemma no_brace_no_payload_witness :
  Cursor.parse_input Json.loads "not json at all" = PNone /\
  Cursor.script Json.loads (Some "not json at all")
    = {| stdout := ["{}"]; stderr := ""; exit_status := 0; sent := None |} /\
  Pi.script Json.loads (Some "not json at all")
    = {| stdout := ["{}"]; stderr := ""; exit_status := 0; sent := None |}.
Proof.
  apply (no_brace_no_payload Json.loads "not json at all");
    vm_compute; reflexivity.
Defined.

(** X3.  A payload that decodes to null is no payload: nothing is sent and
    [{}] is printed. *)
Theorem null_payload_is_ignored (json_loads : string -> option pyval)
  (raw : string) :
  json_loads raw = Some PNone ->
  Cursor.script json_loads (Some raw)
    = {| stdout := ["{}"]; stderr := ""; exit_status := 0; sent := None |} /\
  Pi.script json_loads (Some raw)
    = {| stdout := ["{}"]; stderr := ""; exit_status := 0; sent := None |}.
Proof.
  intros H.
  destruct (parse_input_direct json_loads raw PNone H) as [Ec Ep].
  unfold Cursor.script, Pi.script, Cursor.main, Pi.main.
  rewrite Ec, Ep. split; reflexivity.
Qed.

Lemma null_payload_is_ignored_witness :
  Cursor.script Json.loads (Some " null ")
    = {| stdout := ["{}"]; stderr := ""; exit_status := 0; sent := None |} /\
  Pi.script Json.loads (Some " null ")
    = {| stdout := ["{}"]; stderr := ""; exit_status := 0; sent := None |}.
Proof.
  apply (null_payload_is_ignored Json.loads " null ").
  vm_compute. reflexivity.
Defined.

(** X4.  The second strategy: when the whole text does not decode, text
    before the first opening brace and after the last closing brace is
    dropped, and what the text between them (braces included) decodes to
    is returned. *)
Theorem outer_braces_recovered (json_loads : string -> option pyval)
  (pre mid post : string) (v : pyval) :
  contains "{" pre = false ->
  contains "}" post = false ->
  json_loads (pre ++ "{" ++ mid ++ "}" ++ post) = None ->
  json_loads ("{" ++ mid ++ "}") = Some v ->
  Cursor.parse_input json_loads (pre ++ "{" ++ mid ++ "}" ++ post) = v /\
  Pi.parse_input json_loads (pre ++ "{" ++ mid ++ "}" ++ post) = v.
Proof.
  intros Hpre Hpost Hraw Hobj.
  assert (E : Cursor.parse_input json_loads
                (pre ++ "{" ++ mid ++ "}" ++ post) = v).
  { unfold Cursor.parse_input. rewrite Hraw.
    cbn [append] in *.
    assert (Hf : find "{" (pre ++ String "{" (mid ++ String "}" post))
                 = Z.of_nat (String.length pre)).
    { unfold find. rewrite find_from_first by assumption. lia. }
    assert (Hr : rfind "}" (pre ++ String "{" (mid ++ String "}" post))
                 = Z.of_nat (String.length pre)
                   + 1 + Z.of_nat (String.length mid)).
    { replace (pre ++ String "{" (mid ++ String "}" post))
        with ((pre ++ String "{" mid) ++ String "}" post)
        by (rewrite append_assoc; reflexivity).
      rewrite rfind_last by assumption.
      rewrite length_app. cbn [String.length]. lia. }
    rewrite Hf, Hr.
    replace ((0 <=? Z.of_nat (String.length pre))
             && (Z.of_nat (String.length pre)
                 <? Z.of_nat (String.length pre) + 1
                    + Z.of_nat (String.length mid)))
      with true
      by (symmetry; apply andb_true_iff; split;
          [apply Z.leb_le | apply Z.ltb_lt]; lia).
    unfold slice. rewrite Nat2Z.id.
    replace (Z.to_nat (Z.of_nat (String.length pre) + 1
                       + Z.of_nat (String.length mid) + 1
                       - Z.of_nat (String.length pre)))
      with (String.length (String "{" (mid ++ String "}" EmptyString)))
      by (cbn [String.length]; rewrite length_app; cbn [String.length]; lia).
    rewrite substring_skip.
    replace (String "{" (mid ++ String "}" post))
      with (String "{" (mid ++ String "}" EmptyString) ++ post)
      by (cbn [append]; rewrite append_assoc; reflexivity).
    rewrite substring_prefix, Hobj. reflexivity. }
  split; [exact E |].
  exact (eq_trans (pi_parse_cursor_parse json_loads _) E).
Qed.

Lemma outer_braces_recovered_witness :
  Cursor.parse_input Json.loads
    ("noise" ++ "{" ++ Json.text "'a':1" ++ "}" ++ "moretrailing")
    = PDict [("a", PInt 1)] /\
  Pi.parse_input Json.loads
    ("noise" ++ "{" ++ Json.text "'a':1" ++ "}" ++ "moretrailing")
    = PDict [("a", PInt 1)].
Proof.
  apply (outer_braces_recovered Json.loads "noise" (Json.text "'a':1")
           "moretrailing"); vm_compute; reflexivity.
Defined.

(* ------------------------------------------------------------------ *)
(** ** More on the records                                              *)
(* ------------------------------------------------------------------ *)

Ltac check_keys :=
  unfold well_keyed; cbn; eexists; split; [reflexivity |];
  split;
  [ intros k Hk; cbn in Hk |- *; intuition
  | repeat constructor; cbn; intuition discriminate ].

Lemma cursor_keys (jl : string -> option pyval) (data : pyval) (st : dict) :
  Cursor.normalize jl data = Some st -> well_keyed st.
Proof.
  intros H. unfold Cursor.normalize in H.
  destruct data as [| | | | | |d];
    [vm_compute in H; discriminate H .. |].
  apply bind_some in H as (sid & _ & H).
  cbn [get bind ret] in H.
  apply bind_some in H as (cwd & _ & H).
  unfold Cursor.tool_input_of in H. cbn [get bind ret] in H.
  apply bind_some in H as (tp & _ & H).
  cbn [get bind ret] in H.
  fold (field d "hook_event_name" (PStr "")) in *.
  fold (field d "tool_name" PNone) in *.
  fold (field d "tool_use_id" (PStr "")) in *.
  fold (field d "tool_input" (PDict [])) in *.
  generalize dependent (field d "hook_event_name" (PStr "")).
  generalize (field d "tool_name" PNone) (field d "tool_use_id" (PStr ""))
    (Cursor.decode_tool_input jl (field d "tool_input" (PDict []))).
  intros tool id input event H.
  run_chain H tp event tool id; check_keys.
Qed.

Lemma pi_keys (jl : string -> option pyval) (data : pyval) (st : dict) :
  Pi.normalize jl data = Some st -> well_keyed st.
Proof.
  intros H. unfold Pi.normalize in H.
  destruct data as [| | | | | |d];
    [vm_compute in H; discriminate H .. |].
  apply bind_some in H as (raw & _ & H).
  cbn [get bind ret] in H.
  apply bind_some in H as (cwd & _ & H).
  unfold Pi.tool_input_of in H. cbn [get bind ret] in H.
  apply bind_some in H as ([tp sid] & _ & H).
  cbn [get bind ret] in H.
  fold (field d "hook_event_name" (PStr "")) in *.
  fold (field d "tool_name" PNone) in *.
  fold (field d "tool_use_id" (PStr "")) in *.
  fold (field d "tool_input" (PDict [])) in *.
  generalize dependent (field d "hook_event_name" (PStr "")).
  generalize (field d "tool_name" PNone) (field d "tool_use_id" (PStr ""))
    (Pi.decode_tool_input jl (field d "tool_input" (PDict [])))
    (Pi.or_unknown sid).
  intros tool id input sid' event H.
  run_chain H tp event tool id; check_keys.
Qed.

(** X5.  The keys of every record: [session_id], [cwd], [event],
    [agent_type] and [status] first, in this order, then some of
    [transcript_path], [tool], [tool_input], [tool_use_id] and
    [tool_display], each at most once, and no other key. *)
Theorem record_keys (json_loads : string -> option pyval)
  (data : pyval) (st : dict) :
  Cursor.normalize json_loads data = Some st \/
  Pi.normalize json_loads data = Some st ->
  well_keyed st.
Proof.
  intros [H | H]; [eapply cursor_keys | eapply pi_keys]; exact H.
Qed.

Lemma record_keys_witness :
  exists st,
    Cursor.normalize Json.loads
      (PDict [("hook_event_name", PStr "preToolUse");
              ("tool_name", PStr "Shell");
              ("tool_use_id", PStr "t1");
              ("transcript_path", PStr "/a/b.txt")]) = Some st /\
    well_keyed st.
Proof.
  eexists. split.
  - vm_compute. reflexivity.
  - apply (record_keys Json.loads
             (PDict [("hook_event_name", PStr "preToolUse");
                     ("tool_name", PStr "Shell");
                     ("tool_use_id", PStr "t1");
                     ("transcript_path", PStr "/a/b.txt")])).
    left. vm_compute. reflexivity.
Defined.

(** X6.  A record whose event is not [preToolUse] or [postToolUse] has
    none of [tool], [tool_input], [tool_use_id], [tool_display]. *)
Theorem no_tool_fields_outside_tool_events
  (json_loads : string -> option pyval) (data : pyval) (st : dict)
  (event : pyval) :
  Cursor.normalize json_loads data = Some st \/
  Pi.normalize json_loads data = Some st ->
  dict_get "event" st = Some event ->
  Spec.tool_event event = false ->
  dict_get "tool" st = None /\
  dict_get "tool_input" st = None /\
  dict_get "tool_use_id" st = None /\
  dict_get "tool_display" st = None.
Proof.
  intros H Hev Hno.
  apply record_tool_view in H as (d & _ & Hev' & _ & H1 & H2 & H3 & H4).
  rewrite Hev in Hev'. injection Hev' as Hev'. subst event.
  rewrite Hno in *. cbn in *. auto.
Qed.

Lemma no_tool_fields_outside_tool_events_witness :
  exists st,
    Pi.normalize Json.loads
      (PDict [("hook_event_name", PStr "stop");
              ("tool_name", PStr "Shell");
              ("tool_use_id", PStr "t1")]) = Some st /\
    dict_get "tool" st = None /\
    dict_get "tool_input" st = None /\
    dict_get "tool_use_id" st = None /\
    dict_get "tool_display" st = None.
Proof.
  eexists. split.
  - vm_compute. reflexivity.
  - apply (no_tool_fields_outside_tool_events Json.loads
             (PDict [("hook_event_name", PStr "stop");
                     ("tool_name", PStr "Shell");
                     ("tool_use_id", PStr "t1")]) _ (PStr "stop")).
    + right. vm_compute. reflexivity.
    + reflexivity.
    + reflexivity.
Defined.

(** X7.  A record has [tool_display] exactly when its [tool] is the
    string [Shell], and then [tool_display] is [Bash]. *)
Theorem shell_is_displayed_as_bash (json_loads : string -> option pyval)
  (data : pyval) (st : dict) :
  Cursor.normalize json_loads data = Some st \/
  Pi.normalize json_loads data = Some st ->
  (dict_get "tool_display" st = Some (PStr "Bash") <->
   dict_get "tool" st = Some (PStr "Shell")) /\
  (dict_get "tool_display" st = None \/
   dict_get "tool_display" st = Some (PStr "Bash")).
Proof.
  intros H.
  apply record_tool_view in H as (d & _ & _ & _ & Htool & _ & _ & Hdisp).
  rewrite Htool, Hdisp.
  destruct (Spec.tool_event (field d "hook_event_name" (PStr ""))); cbn.
  - destruct (field d "tool_name" PNone) as [| | | |s| |]; cbn;
      try (split; [split; discriminate | auto]).
    destruct (String.eqb_spec s "Shell") as [-> | Hs].
    + split; [split; reflexivity | auto].
    + split; [split; [discriminate | congruence] | auto].
  - split; [split; discriminate | auto].
Qed.

Lemma shell_is_displayed_as_bash_witness :
  exists st,
    Cursor.normalize Json.loads
      (PDict [("hook_event_name", PStr "preToolUse");
              ("tool_name", PStr "Shell")]) = Some st /\
    dict_get "status" st = Some (PStr "running_tool") /\
    dict_get "tool" st = Some (PStr "Shell") /\
    dict_get "tool_display" st = Some (PStr "Bash").
Proof.
  eexists. split; [vm_compute; reflexivity |].
  split; [vm_compute; reflexivity |].
  split; [vm_compute; reflexivity |].
  apply (shell_is_displayed_as_bash Json.loads
           (PDict [("hook_event_name", PStr "preToolUse");
                   ("tool_name", PStr "Shell")])).
  - left. vm_compute. reflexivity.
  - vm_compute. reflexivity.
Defined.

(** X8.  A record never holds a falsy [tool_use_id]: when the key is
    there, its value is the truthy [tool_use_id] of the payload. *)
Theorem tool_use_id_is_truthy (json_loads : string -> option pyval)
  (d : dict) (st : dict) (v : pyval) :
  Cursor.normalize json_loads (PDict d) = Some st \/
  Pi.normalize json_loads (PDict d) = Some st ->
  dict_get "tool_use_id" st = Some v ->
  truthy v = true /\ dict_get "tool_use_id" d = Some v.
Proof.
  intros H Hv.
  apply record_tool_view in H as (d' & E & _ & _ & _ & _ & Hid & _).
  injection E as <-. rewrite Hv in Hid.
  destruct (Spec.tool_event (field d "hook_event_name" (PStr "")));
    cbn in Hid; [| discriminate].
  destruct (truthy (field d "tool_use_id" (PStr ""))) eqn:T;
    [| discriminate].
  injection Hid as ->. split; [exact T |].
  unfold field in *.
  destruct (dict_get "tool_use_id" d); [reflexivity | discriminate T].
Qed.

Lemma tool_use_id_is_truthy_witness :
  truthy (PStr "call-7") = true /\
  dict_get "tool_use_id"
    [("hook_event_name", PStr "postToolUse");
     ("tool_use_id", PStr "call-7")] = Some (PStr "call-7").
Proof.
  eapply (tool_use_id_is_truthy Json.loads
            [("hook_event_name", PStr "postToolUse");
             ("tool_use_id", PStr "call-7")] _ (PStr "call-7")).
  - right. vm_compute. reflexivity.
  - vm_compute. reflexivity.
Defined.

(* ------------------------------------------------------------------ *)
(** ** Transcript path, identifier and directory                        *)
(* ------------------------------------------------------------------ *)

Lemma app_suffix_nonempty (a : string) (c : ascii) (r : string) :
  String.eqb (a ++ String c r) "" = false.
Proof. destruct a; reflexivity. Qed.

Lemma partition_absent (c : ascii) (s : string) :
  contains c s = false -> partition c s = None.
Proof.
  induction s as [|a s IH]; simpl; intros H; [reflexivity |].
  apply orb_false_iff in H as [-> H]. rewrite IH by assumption.
  reflexivity.
Qed.

(** X9.  In the cursor script a transcript path that ends in [.txt] is
    sent with [.jsonl] in its place. *)
Theorem cursor_txt_becomes_jsonl (json_loads : string -> option pyval)
  (d : dict) (st : dict) (base : string) :
  dict_get "transcript_path" d = Some (PStr (base ++ ".txt")) ->
  Cursor.normalize json_loads (PDict d) = Some st ->
  dict_get "transcript_path" st = Some (PStr (base ++ ".jsonl")).
Proof.
  intros Hd H.
  apply cursor_record in H
    as (d' & sid & cwd & tp & E & _ & _ & Htp & Hframe & _).
  injection E as <-.
  destruct Hframe as (_ & _ & _ & Hget).
  unfold Cursor.transcript_path_of in Htp. cbn [get bind ret] in Htp.
  rewrite Hd in Htp. cbn [truthy val_endswith bind ret] in Htp.
  rewrite app_suffix_nonempty, endswith_app in Htp.
  cbn [negb replace_tail ret] in Htp.
  change 4%nat with (String.length ".txt") in Htp.
  rewrite drop_last_app in Htp. injection Htp as <-.
  rewrite Hget. cbn [truthy]. rewrite app_suffix_nonempty. reflexivity.
Qed.

Lemma cursor_txt_becomes_jsonl_witness :
  exists st,
    Cursor.normalize Json.loads
      (PDict [("transcript_path", PStr "/logs/agent-1.txt")]) = Some st /\
    dict_get "transcript_path" st = Some (PStr "/logs/agent-1.jsonl").
Proof.
  eexists. split; [vm_compute; reflexivity |].
  apply (cursor_txt_becomes_jsonl Json.loads
           [("transcript_path", PStr "/logs/agent-1.txt")] _ "/logs/agent-1").
  - reflexivity.
  - vm_compute. reflexivity.
Defined.

(** X10.  A cursor record has no [transcript_path] exactly when the
    payload's [transcript_path] is falsy (absent, null, empty); a path
    that does not end in [.txt] is sent as it is. *)
Theorem cursor_transcript_path_presence
  (json_loads : string -> option pyval) (d : dict) (st : dict) :
  Cursor.normalize json_loads (PDict d) = Some st ->
  (dict_get "transcript_path" st = None <->
   truthy (field d "transcript_path" (PStr "")) = false) /\
  (forall p,
     dict_get "transcript_path" d = Some (PStr p) ->
     p <> "" -> endswith p ".txt" = false ->
     dict_get "transcript_path" st = Some (PStr p)).
Proof.
  intros H.
  apply cursor_record in H
    as (d' & sid & cwd & tp & E & _ & _ & Htp & Hframe & _).
  injection E as <-.
  destruct Hframe as (_ & _ & _ & Hget).
  unfold Cursor.transcript_path_of in Htp. cbn [get bind ret] in Htp.
  fold (field d "transcript_path" (PStr "")) in Htp.
  split.
  - rewrite Hget.
    destruct (truthy (field d "transcript_path" (PStr ""))) eqn:T.
    + destruct (field d "transcript_path" (PStr "")) as [| | | |p| |];
        try discriminate Htp.
      cbn [val_endswith bind ret replace_tail] in Htp.
      destruct (endswith p ".txt"); injection Htp as <-.
      * cbn [truthy]. rewrite app_suffix_nonempty.
        split; discriminate.
      * rewrite T. split; discriminate.
    + injection Htp as <-. rewrite T. split; reflexivity.
  - intros p Hp Hne Hend. unfold field in Htp. rewrite Hp in Htp.
    cbn [truthy val_endswith bind ret] in Htp.
    apply String.eqb_neq in Hne. rewrite Hne, Hend in Htp.
    cbn [negb] in Htp. injection Htp as <-.
    rewrite Hget. cbn [truthy]. rewrite Hne. reflexivity.
Qed.

(** X11.  In the pi script a session identifier without ["/"] is sent as
    it is, and the record has no [transcript_path]. *)
Theorem pi_plain_id_passes_through (json_loads : string -> option pyval)
  (d : dict) (st : dict) (s : string) :
  dict_get "session_id" d = Some (PStr s) ->
  contains "/" s = false ->
  s <> "" ->
  s <> "ephemeral" ->
  Pi.normalize json_loads (PDict d) = Some st ->
  dict_get "session_id" st = Some (PStr s) /\
  dict_get "transcript_path" st = None.
Proof.
  intros Hd Hs Hne Heph H.
  apply pi_record in H
    as (d' & raw & cwd & tp & sid & E & Hraw & _ & Hun & Hframe & _).
  injection E as <-.
  apply String.eqb_neq in Hne, Heph.
  unfold Pi.raw_session_id_of in Hraw. cbn [get bind ret] in Hraw.
  rewrite Hd in Hraw. cbn [truthy] in Hraw. rewrite Hne in Hraw.
  cbn [negb] in Hraw. injection Hraw as <-.
  unfold Pi.unwrap in Hun. cbn [truthy contains_slash bind ret] in Hun.
  rewrite Hne, Hs in Hun. cbn [negb] in Hun. injection Hun as <- <-.
  destruct Hframe as (Hsid & _ & _ & Htp).
  rewrite Hsid, Htp. unfold Pi.or_unknown. cbn [truthy eq_str].
  rewrite Hne, Heph. split; reflexivity.
Qed.

Lemma pi_plain_id_passes_through_witness :
  exists st,
    Pi.normalize Json.loads (PDict [("session_id", PStr "abc-123")])
      = Some st /\
    dict_get "session_id" st = Some (PStr "abc-123") /\
    dict_get "transcript_path" st = None.
Proof.
  eexists. split; [vm_compute; reflexivity |].
  apply (pi_plain_id_passes_through Json.loads
           [("session_id", PStr "abc-123")] _ "abc-123").
  - reflexivity.
  - reflexivity.
  - discriminate.
  - discriminate.
  - vm_compute. reflexivity.
Defined.

(** X12.  In the pi script a path [dir/name.jsonl] whose [name] has no
    ["_"] gives the identifier [name], and is itself the transcript
    path. *)
Theorem pi_path_without_underscore (json_loads : string -> option pyval)
  (d : dict) (st : dict) (dir name : string) :
  dict_get "session_id" d = Some (PStr (dir ++ "/" ++ name ++ ".jsonl")) ->
  contains "/" name = false ->
  contains "_" name = false ->
  name <> "" ->
  name <> "ephemeral" ->
  Pi.normalize json_loads (PDict d) = Some st ->
  dict_get "session_id" st = Some (PStr name) /\
  dict_get "transcript_path" st
    = Some (PStr (dir ++ "/" ++ name ++ ".jsonl")).
Proof.
  intros Hd Hsl Hun' Hne Heph H.
  apply pi_record in H
    as (d' & raw & cwd & tp & sid & E & Hraw & _ & Hun & Hframe & _).
  injection E as <-.
  apply String.eqb_neq in Hne, Heph.
  cbn [append] in *.
  unfold Pi.raw_session_id_of in Hraw. cbn [get bind ret] in Hraw.
  rewrite Hd in Hraw. cbn [truthy] in Hraw.
  rewrite app_suffix_nonempty in Hraw. cbn [negb] in Hraw.
  injection Hraw as <-.
  unfold Pi.unwrap in Hun.
  cbn [truthy contains_slash path_basename bind ret] in Hun.
  rewrite app_suffix_nonempty in Hun. cbn [negb] in Hun.
  assert (Hin : contains "/" (dir ++ String "/" (name ++ ".jsonl")) = true).
  { rewrite contains_app. simpl. apply orb_true_r. }
  assert (Hrest : contains "/" (name ++ ".jsonl") = false).
  { rewrite contains_app, Hsl. reflexivity. }
  rewrite Hin, basename_after_slash, endswith_app in Hun by assumption.
  change 6%nat with (String.length ".jsonl") in Hun.
  rewrite drop_last_app in Hun.
  unfold split1 in Hun. rewrite partition_absent in Hun by assumption.
  injection Hun as <- <-.
  destruct Hframe as (Hsid & _ & _ & Htp).
  rewrite Hsid, Htp. unfold Pi.or_unknown. cbn [truthy eq_str].
  rewrite Hne, Heph, app_suffix_nonempty. split; reflexivity.
Qed.

Lemma pi_path_without_underscore_witness :
  exists st,
    Pi.normalize Json.loads
      (PDict [("session_id", PStr "/home/u/.pi/session7.jsonl")])
      = Some st /\
    dict_get "session_id" st = Some (PStr "session7") /\
    dict_get "transcript_path" st
      = Some (PStr "/home/u/.pi/session7.jsonl").
Proof.
  eexists. split; [vm_compute; reflexivity |].
  apply (pi_path_without_underscore Json.loads
           [("session_id", PStr "/home/u/.pi/session7.jsonl")] _
           "/home/u/.pi" "session7").
  - reflexivity.
  - reflexivity.
  - reflexivity.
  - discriminate.
  - discriminate.
  - vm_compute. reflexivity.
Defined.

Lemma cursor_transcript_path_presence_witness :
  exists st,
    Cursor.normalize Json.loads
      (PDict [("transcript_path", PStr "/logs/agent-1.log")]) = Some st /\
    dict_get "transcript_path" st = Some (PStr "/logs/agent-1.log").
Proof.
  eexists. split; [vm_compute; reflexivity |].
  apply (cursor_transcript_path_presence Json.loads
           [("transcript_path", PStr "/logs/agent-1.log")]).
  - vm_compute. reflexivity.
  - reflexivity.
  - discriminate.
  - reflexivity.
Defined.

(** X13.  In the pi script a truthy [cwd] of the payload is the [cwd] of
    the record, whatever [workspace_roots] holds. *)
Theorem pi_cwd_takes_precedence (json_loads : string -> option pyval)
  (d : dict) (st : dict) (v : pyval) :
  dict_get "cwd" d = Some v ->
  truthy v = true ->
  Pi.normalize json_loads (PDict d) = Some st ->
  dict_get "cwd" st = Some v.
Proof.
  intros Hd Hv H.
  apply pi_record in H
    as (d' & raw & cwd & tp & sid & E & _ & Hcwd & _ & Hframe & _).
  injection E as <-.
  destruct Hframe as (_ & Hget & _).
  unfold Pi.cwd_of in Hcwd. cbn [get bind ret] in Hcwd.
  rewrite Hd, Hv in Hcwd. injection Hcwd as <-. exact Hget.
Qed.

Lemma pi_cwd_takes_precedence_witness :
  exists st,
    Pi.normalize Json.loads
      (PDict [("cwd", PStr "/work"); ("workspace_roots", PInt 5)])
      = Some st /\
    dict_get "cwd" st = Some (PStr "/work").
Proof.
  eexists. split; [vm_compute; reflexivity |].
  apply (pi_cwd_takes_precedence Json.loads
           [("cwd", PStr "/work"); ("workspace_roots", PInt 5)]).
  - reflexivity.
  - reflexivity.
  - vm_compute. reflexivity.
Defined.

(** X14.  When [workspace_roots] is a non-empty list, the [cwd] of the
    record is its first item: always in the cursor script, and in the pi
    script when the payload has no truthy [cwd]. *)
Theorem cwd_is_first_root (json_loads : string -> option pyval)
  (d : dict) (st : dict) (x : pyval) (l : list pyval) :
  dict_get "workspace_roots" d = Some (PList (x :: l)) ->
  Cursor.normalize json_loads (PDict d) = Some st \/
  (truthy (field d "cwd" PNone) = false /\
   Pi.normalize json_loads (PDict d) = Some st) ->
  dict_get "cwd" st = Some x.
Proof.
  intros Hd [H | [Hc H]].
  - apply cursor_record in H
      as (d' & sid & cwd & tp & E & _ & Hcwd & _ & Hframe & _).
    injection E as <-. destruct Hframe as (_ & Hget & _).
    unfold Cursor.cwd_of in Hcwd. cbn [get bind ret] in Hcwd.
    rewrite Hd in Hcwd. cbn in Hcwd. injection Hcwd as <-. exact Hget.
  - apply pi_record in H
      as (d' & raw & cwd & tp & sid & E & _ & Hcwd & _ & Hframe & _).
    injection E as <-. destruct Hframe as (_ & Hget & _).
    unfold Pi.cwd_of in Hcwd. cbn [get bind ret] in Hcwd.
    fold (field d "cwd" PNone) in Hcwd.
    rewrite Hd, Hc in Hcwd. cbn in Hcwd. injection Hcwd as <-. exact Hget.
Qed.

Lemma cwd_is_first_root_witness :
  exists st,
    Cursor.normalize Json.loads
      (PDict [("workspace_roots", PList [PStr "/w1"; PStr "/w2"])])
      = Some st /\
    dict_get "cwd" st = Some (PStr "/w1").
Proof.
  eexists. split; [vm_compute; reflexivity |].
  apply (cwd_is_first_root Json.loads
           [("workspace_roots", PList [PStr "/w1"; PStr "/w2"])]
           _ (PStr "/w1") [PStr "/w2"]).
  - reflexivity.
  - left. vm_compute. reflexivity.
Defined.

(** X15.  When [workspace_roots] is falsy (absent, null, an empty list),
    the [cwd] of the record is the empty string: always in the cursor
    script, and in the pi script when the payload has no truthy [cwd]. *)
Theorem cwd_defaults_to_empty (json_loads : string -> option pyval)
  (d : dict) (st : dict) :
  truthy (field d "workspace_roots" PNone) = false ->
  Cursor.normalize json_loads (PDict d) = Some st \/
  (truthy (field d "cwd" PNone) = false /\
   Pi.normalize json_loads (PDict d) = Some st) ->
  dict_get "cwd" st = Some (PStr "").
Proof.
  intros Hd [H | [Hc H]].
  - apply cursor_record in H
      as (d' & sid & cwd & tp & E & _ & Hcwd & _ & Hframe & _).
    injection E as <-. destruct Hframe as (_ & Hget & _).
    unfold Cursor.cwd_of in Hcwd. cbn [get bind ret] in Hcwd.
    fold (field d "workspace_roots" PNone) in Hcwd.
    rewrite Hd in Hcwd. cbn in Hcwd. injection Hcwd as <-. exact Hget.
  - apply pi_record in H
      as (d' & raw & cwd & tp & sid & E & _ & Hcwd & _ & Hframe & _).
    injection E as <-. destruct Hframe as (_ & Hget & _).
    unfold Pi.cwd_of in Hcwd. cbn [get bind ret] in Hcwd.
    fold (field d "cwd" PNone) in Hcwd.
    fold (field d "workspace_roots" PNone) in Hcwd.
    rewrite Hd, Hc in Hcwd. cbn in Hcwd. injection Hcwd as <-. exact Hget.
Qed.

Lemma cwd_defaults_to_empty_witness :
  exists st,
    Pi.normalize Json.loads
      (PDict [("workspace_roots", PList []); ("cwd", PNone)]) = Some st /\
    dict_get "cwd" st = Some (PStr "").
Proof.
  eexists. split; [vm_compute; reflexivity |].
  apply (cwd_defaults_to_empty Json.loads
           [("workspace_roots", PList []); ("cwd", PNone)]).
  - reflexivity.
  - right. split; [reflexivity | vm_compute; reflexivity].
Defined.

(* ------------------------------------------------------------------ *)
(** ** When the normalizer raises                                       *)
(* ------------------------------------------------------------------ *)

Lemma cursor_session_id_returns (d : dict) :
  exists sid, Cursor.session_id_of (PDict d) = Some sid.
Proof.
  unfold Cursor.session_id_of. cbn [get bind ret].
  destruct (truthy _); eauto.
Qed.

Ltac settle_iff :=
  cbn;
  repeat match goal with
         | E : _ = _ |- _ => rewrite E
         end;
  cbn;
  split;
  [ let H := fresh in intros [? H]; first [reflexivity | discriminate H]
  | let H := fresh in
    intros H; first [discriminate H | eexists; reflexivity] ].

Lemma cursor_cwd_returns (d : dict) :
  (exists cwd, Cursor.cwd_of (PDict d) = Some cwd) <->
  roots_ok (field d "workspace_roots" PNone) = true.
Proof.
  unfold Cursor.cwd_of, roots_ok. cbn [get bind ret].
  fold (field d "workspace_roots" PNone).
  destruct (field d "workspace_roots" PNone) as [|b|z|f|s|l|m].
  - settle_iff.
  - destruct b; settle_iff.
  - cbn [truthy]. destruct (z =? 0) eqn:?; settle_iff.
  - cbn [truthy]. destruct (float_nonzero f) eqn:?; settle_iff.
  - destruct s; settle_iff.
  - destruct l; settle_iff.
  - destruct m; settle_iff.
Qed.

Lemma cursor_transcript_returns (d : dict) :
  (exists tp, Cursor.transcript_path_of (PDict d) = Some tp) <->
  str_or_falsy (field d "transcript_path" (PStr "")) = true.
Proof.
  unfold Cursor.transcript_path_of, str_or_falsy. cbn [get bind ret].
  fold (field d "transcript_path" (PStr "")).
  destruct (field d "transcript_path" (PStr "")) as [|b|z|f|s|l|m].
  - settle_iff.
  - destruct b; settle_iff.
  - cbn [truthy]. destruct (z =? 0) eqn:?; settle_iff.
  - cbn [truthy]. destruct (float_nonzero f) eqn:?; settle_iff.
  - destruct s as [|c s]; [settle_iff |].
    cbn [truthy String.eqb negb val_endswith bind ret replace_tail is_str
         orb].
    destruct (endswith (String c s) ".txt") eqn:?; settle_iff.
  - destruct l; settle_iff.
  - destruct m; settle_iff.
Qed.

Lemma cursor_normalize_iff (jl : string -> option pyval) (data : pyval) :
  (exists st, Cursor.normalize jl data = Some st) <->
  exists d,
    data = PDict d /\
    roots_ok (field d "workspace_roots" PNone) = true /\
    str_or_falsy (field d "transcript_path" (PStr "")) = true.
Proof.
  split.
  - intros [st H].
    apply cursor_record in H
      as (d & sid & cwd & tp & -> & _ & Hcwd & Htp & _).
    exists d. split; [reflexivity |]. split.
    + apply cursor_cwd_returns. eauto.
    + apply cursor_transcript_returns. eauto.
  - intros (d & -> & Hr & Ht).
    destruct (cursor_session_id_returns d) as [sid Hsid].
    apply cursor_cwd_returns in Hr as [cwd Hcwd].
    apply cursor_transcript_returns in Ht as [tp Htp].
    eapply cursor_normalize_returns; eassumption.
Qed.

(** X16.  The cursor normalizer returns a record exactly when the payload
    is an object whose [workspace_roots] is falsy, a list or a string and
    whose [transcript_path] is falsy or a string; on every other payload
    it raises. *)
Theorem cursor_normalize_returns_iff (json_loads : string -> option pyval)
  (data : pyval) :
  (exists st, Cursor.normalize json_loads data = Some st) <->
  exists d,
    data = PDict d /\
    roots_ok (field d "workspace_roots" PNone) = true /\
    str_or_falsy (field d "transcript_path" (PStr "")) = true.
Proof. exact (cursor_normalize_iff json_loads data). Qed.

Lemma pi_raw_session_id_returns (d : dict) :
  Pi.raw_session_id_of (PDict d)
  = Some (if truthy (field d "session_id" PNone)
          then field d "session_id" PNone else PStr "").
Proof. reflexivity. Qed.

Lemma pi_cwd_returns (d : dict) :
  (exists cwd, Pi.cwd_of (PDict d) = Some cwd) <->
  truthy (field d "cwd" PNone)
  || roots_ok (field d "workspace_roots" PNone) = true.
Proof.
  unfold Pi.cwd_of, roots_ok. cbn [get bind ret].
  fold (field d "workspace_roots" PNone). fold (field d "cwd" PNone).
  destruct (truthy (field d "cwd" PNone)); [settle_iff |].
  cbn [orb].
  destruct (field d "workspace_roots" PNone) as [|b|z|f|s|l|m].
  - settle_iff.
  - destruct b; settle_iff.
  - cbn [truthy]. destruct (z =? 0) eqn:?; settle_iff.
  - cbn [truthy]. destruct (float_nonzero f) eqn:?; settle_iff.
  - destruct s; settle_iff.
  - destruct l; settle_iff.
  - destruct m; settle_iff.
Qed.

Lemma pi_unwrap_returns (v : pyval) :
  (exists path, Pi.unwrap (if truthy v then v else PStr "") = Some path) <->
  raw_id_ok v = true.
Proof.
  unfold Pi.unwrap, raw_id_ok.
  destruct v as [|b|z|f|s|l|m].
  - settle_iff.
  - destruct b; settle_iff.
  - cbn [truthy]. destruct (z =? 0) eqn:?; settle_iff.
  - cbn [truthy]. destruct (float_nonzero f) eqn:?; settle_iff.
  - destruct s as [|c s]; [settle_iff |].
    cbn [truthy String.eqb negb contains_slash path_basename bind ret orb].
    destruct (contains "/" (String c s)); [| settle_iff].
    match goal with
    | |- context [split1 ?a ?b] => destruct (split1 a b) as [|? [|? [|? ?]]]
    end; settle_iff.
  - destruct l as [|x l]; [settle_iff |].
    cbn [truthy contains_slash path_basename bind ret negb orb].
    destruct (existsb (fun x0 => eq_str x0 "/") (x :: l)); settle_iff.
  - destruct m as [|kv m]; [settle_iff |].
    cbn [truthy contains_slash path_basename bind ret negb orb].
    destruct (existsb (fun kv0 => String.eqb (fst kv0) "/") (kv :: m));
      settle_iff.
Qed.

Lemma pi_normalize_iff (jl : string -> option pyval) (data : pyval) :
  (exists st, Pi.normalize jl data = Some st) <->
  exists d,
    data = PDict d /\
    truthy (field d "cwd" PNone)
    || roots_ok (field d "workspace_roots" PNone) = true /\
    raw_id_ok (field d "session_id" PNone) = true.
Proof.
  split.
  - intros [st H].
    apply pi_record in H
      as (d & raw & cwd & tp & sid & -> & Hraw & Hcwd & Hun & _).
    exists d. split; [reflexivity |]. split.
    + apply pi_cwd_returns. eauto.
    + rewrite pi_raw_session_id_returns in Hraw. injection Hraw as <-.
      apply pi_unwrap_returns. eauto.
  - intros (d & -> & Hc & Hid).
    apply pi_cwd_returns in Hc as [cwd Hcwd].
    apply pi_unwrap_returns in Hid as [path Hpath].
    eapply pi_normalize_returns;
      [apply pi_raw_session_id_returns | eassumption | eassumption].
Qed.

(** X17.  The pi normalizer returns a record exactly when the payload is
    an object with a truthy [cwd], or a [workspace_roots] that is falsy, a
    list or a string, and with a [session_id] that is falsy, a string, or
    a list or object without ["/"] among its items or keys; on every other
    payload it raises. *)
Theorem pi_normalize_returns_iff (json_loads : string -> option pyval)
  (data : pyval) :
  (exists st, Pi.normalize json_loads data = Some st) <->
  exists d,
    data = PDict d /\
    truthy (field d "cwd" PNone)
    || roots_ok (field d "workspace_roots" PNone) = true /\
    raw_id_ok (field d "session_id" PNone) = true.
Proof. exact (pi_normalize_iff json_loads data). Qed.

Lemma some_iff_not_none {A} (o : option A) :
  o <> None <-> exists a, o = Some a.
Proof.
  destruct o; split; try congruence; eauto.
  intros [? ?]. discriminate.
Qed.

(** X18.  What is read from standard input is answered with [{}] exactly
    when the extractor finds no payload, or finds an object the
    normalizer accepts. *)
Theorem answer_printed_iff (json_loads : string -> option pyval)
  (raw : string) :
  (stdout (Cursor.script json_loads (Some raw)) = ["{}"] <->
   Cursor.parse_input json_loads raw = PNone \/
   exists d,
     Cursor.parse_input json_loads raw = PDict d /\
     roots_ok (field d "workspace_roots" PNone) = true /\
     str_or_falsy (field d "transcript_path" (PStr "")) = true) /\
  (stdout (Pi.script json_loads (Some raw)) = ["{}"] <->
   Pi.parse_input json_loads raw = PNone \/
   exists d,
     Pi.parse_input json_loads raw = PDict d /\
     truthy (field d "cwd" PNone)
     || roots_ok (field d "workspace_roots" PNone) = true /\
     raw_id_ok (field d "session_id" PNone) = true).
Proof.
  destruct (script_contract json_loads (Some raw))
    as (_ & _ & _ & _ & Hc & Hp).
  split.
  - rewrite Hc. unfold Cursor.main.
    destruct (Cursor.parse_input json_loads raw) eqn:E;
      cbn [is_none];
      try (split; [intros H; exfalso; apply H; reflexivity
                  | intros [H | (d & H & _)]; discriminate H]).
    + split; [auto | discriminate].
    + split.
      * intros H. right.
        destruct (Cursor.normalize json_loads (PDict items)) eqn:N;
          [| exfalso; apply H; reflexivity].
        exists items. split; [reflexivity |].
        assert (X : exists st, Cursor.normalize json_loads (PDict items)
                               = Some st) by eauto.
        apply cursor_normalize_iff in X as (d' & Ed & X).
        injection Ed as <-. exact X.
      * intros [H | (d & H & Hr & Ht)]; [discriminate H |].
        injection H as <-.
        assert (exists st, Cursor.normalize json_loads (PDict items)
                           = Some st) as [st ->]
          by (apply cursor_normalize_iff; eauto).
        discriminate.
  - rewrite Hp. unfold Pi.main.
    destruct (Pi.parse_input json_loads raw) eqn:E;
      cbn [is_none];
      try (split; [intros H; exfalso; apply H; reflexivity
                  | intros [H | (d & H & _)]; discriminate H]).
    + split; [auto | discriminate].
    + split.
      * intros H. right.
        destruct (Pi.normalize json_loads (PDict items)) eqn:N;
          [| exfalso; apply H; reflexivity].
        exists items. split; [reflexivity |].
        assert (X : exists st, Pi.normalize json_loads (PDict items)
                               = Some st) by eauto.
        apply pi_normalize_iff in X as (d' & Ed & X). injection Ed as <-.
        exact X.
      * intros [H | (d & H & Hr)]; [discriminate H |].
        injection H as <-.
        assert (exists st, Pi.normalize json_loads (PDict items)
                           = Some st) as [st ->]
          by (apply pi_normalize_iff; eauto).
        discriminate.
Qed.

(* ------------------------------------------------------------------ *)
(** ** Identifier fallbacks                                             *)
(* ------------------------------------------------------------------ *)

(** X19.  The cursor script takes the session identifier from
    [conversation_id] when it is truthy, else from [session_id] when that
    is truthy, else it is ["unknown"]. *)
Theorem cursor_identifier_order (json_loads : string -> option pyval)
  (d : dict) (st : dict) :
  Cursor.normalize json_loads (PDict d) = Some st ->
  let conversation := field d "conversation_id" PNone in
  let session := field d "session_id" PNone in
  (truthy conversation = true ->
   dict_get "session_id" st = Some conversation) /\
  (truthy conversation = false -> truthy session = true ->
   dict_get "session_id" st = Some session) /\
  (truthy conversation = false -> truthy session = false ->
   dict_get "session_id" st = Some (PStr "unknown")).
Proof.
  intros H.
  apply cursor_record in H
    as (d' & sid & cwd & tp & E & Hs & _ & _ & Hframe & _).
  injection E as <-. destruct Hframe as (Hget & _).
  unfold Cursor.session_id_of in Hs. cbn [get bind ret] in Hs.
  fold (field d "conversation_id" PNone) in Hs.
  fold (field d "session_id" PNone) in Hs.
  cbv zeta. rewrite Hget.
  destruct (truthy (field d "conversation_id" PNone));
    destruct (truthy (field d "session_id" PNone));
    injection Hs as <-; repeat split; intros; congruence.
Qed.

Lemma cursor_identifier_order_witness :
  exists st,
    Cursor.normalize Json.loads
      (PDict [("session_id", PStr "s-1"); ("conversation_id", PStr "c-1")])
      = Some st /\
    dict_get "session_id" st = Some (PStr "c-1").
Proof.
  eexists. split; [vm_compute; reflexivity |].
  apply (cursor_identifier_order Json.loads
           [("session_id", PStr "s-1"); ("conversation_id", PStr "c-1")]).
  - vm_compute. reflexivity.
  - reflexivity.
Defined.

(** X20.  In the pi script a falsy [session_id] (absent, null, empty) and
    the placeholder ["ephemeral"] both give the identifier ["unknown"],
    and the record has no [transcript_path]. *)
Theorem pi_placeholder_becomes_unknown (json_loads : string -> option pyval)
  (d : dict) (st : dict) :
  truthy (field d "session_id" PNone) = false \/
  field d "session_id" PNone = PStr "ephemeral" ->
  Pi.normalize json_loads (PDict d) = Some st ->
  dict_get "session_id" st = Some (PStr "unknown") /\
  dict_get "transcript_path" st = None.
Proof.
  intros Hid H.
  apply pi_record in H
    as (d' & raw & cwd & tp & sid & E & Hraw & _ & Hun & Hframe & _).
  injection E as <-. destruct Hframe as (Hsid & _ & _ & Htp).
  rewrite pi_raw_session_id_returns in Hraw. injection Hraw as <-.
  destruct Hid as [Hf | He].
  - rewrite Hf in Hun. cbn in Hun. injection Hun as <- <-.
    rewrite Hsid, Htp. split; reflexivity.
  - rewrite He in Hun. cbn in Hun. injection Hun as <- <-.
    rewrite Hsid, Htp. split; reflexivity.
Qed.

Lemma pi_placeholder_becomes_unknown_witness :
  exists st,
    Pi.normalize Json.loads (PDict [("session_id", PStr "ephemeral")])
      = Some st /\
    dict_get "session_id" st = Some (PStr "unknown") /\
    dict_get "transcript_path" st = None.
Proof.
  eexists. split; [vm_compute; reflexivity |].
  apply (pi_placeholder_becomes_unknown Json.loads
           [("session_id", PStr "ephemeral")]).
  - right. reflexivity.
  - vm_compute. reflexivity.
Defined.

(** X21.  In the pi script a path that ends in ["/"] has an empty base
    name: the identifier is ["unknown"], and the path is still sent as
    the transcript path. *)
Theorem pi_directory_path_is_unknown (json_loads : string -> option pyval)
  (d : dict) (st : dict) (dir : string) :
  dict_get "session_id" d = Some (PStr (dir ++ "/")) ->
  Pi.normalize json_loads (PDict d) = Some st ->
  dict_get "session_id" st = Some (PStr "unknown") /\
  dict_get "transcript_path" st = Some (PStr (dir ++ "/")).
Proof.
  intros Hd H.
  apply pi_record in H
    as (d' & raw & cwd & tp & sid & E & Hraw & _ & Hun & Hframe & _).
  injection E as <-. destruct Hframe as (Hsid & _ & _ & Htp).
  rewrite pi_raw_session_id_returns in Hraw. unfold field in Hraw.
  rewrite Hd in Hraw. cbn [truthy] in Hraw.
  rewrite app_suffix_nonempty in Hraw. cbn [negb] in Hraw.
  injection Hraw as <-.
  unfold Pi.unwrap in Hun.
  cbn [truthy contains_slash path_basename bind ret] in Hun.
  rewrite app_suffix_nonempty in Hun. cbn [negb] in Hun.
  assert (Hin : contains "/" (dir ++ "/") = true).
  { rewrite contains_app. simpl. apply orb_true_r. }
  rewrite Hin, basename_after_slash in Hun by reflexivity.
  cbn in Hun. injection Hun as <- <-.
  rewrite Hsid, Htp. cbn [truthy]. rewrite app_suffix_nonempty.
  split; reflexivity.
Qed.

Lemma pi_directory_path_is_unknown_witness :
  exists st,
    Pi.normalize Json.loads (PDict [("session_id", PStr "/tmp/sessions/")])
      = Some st /\
    dict_get "session_id" st = Some (PStr "unknown") /\
    dict_get "transcript_path" st = Some (PStr "/tmp/sessions/").
Proof.
  eexists. split; [vm_compute; reflexivity |].
  apply (pi_directory_path_is_unknown Json.loads
           [("session_id", PStr "/tmp/sessions/")] _ "/tmp/sessions").
  - reflexivity.
  - vm_compute. reflexivity.
Defined.
